(** * UrlDetector: a verification model of [model.py]

    The repository is one Python class, [UrlDetector], a thin layer over
    Keras: it pads encoded URLs, builds one of two networks, and wraps
    [fit] / [evaluate] / [predict_proba].  The development below embeds

    - the padding performed by [_get_padded_docs] (a call of Keras'
      [pad_sequences] with [padding='post'] and every other argument at its
      default),
    - the [f1] metric, written with the Keras backend operations
      [K.sum], [K.round], [K.clip] and [K.epsilon],
    - the object state of [UrlDetector] and of the Keras model it owns,
      together with the methods that read or change it.

    The numerical engine of Keras (weights, forward pass, optimiser) is an
    interface, [Keras.Engine]; the scalars of the metric are exact
    rationals, and the closing arithmetic of [f1] is evaluated a second
    time in IEEE binary32.

    Python exceptions are results of an error type; object state and the
    outside world (standard output, directories, TensorBoard logs) are passed
    explicitly through a small state-and-exception monad. *)

From Stdlib Require Import String Bool ZArith QArith Qround Qminmax Qabs.
From Stdlib Require Import SpecFloat Lia Lqa List.
Import ListNotations.

(** ** Python exceptions *)

Inductive exn : Type :=
| ValueError
| OverflowError
| AttributeError
| RuntimeError
| TypeError.

Inductive result (A : Type) : Type :=
| Ok (a : A)
| Raise (e : exn).

Arguments Ok {A} a.
Arguments Raise {A} e.

Definition rbind {A B : Type} (r : result A) (k : A -> result B) : result B :=
  match r with
  | Ok a => k a
  | Raise e => Raise e
  end.

Fixpoint rmap {A B : Type} (f : A -> result B) (l : list A) : result (list B) :=
  match l with
  | [] => Ok []
  | a :: l' =>
      rbind (f a) (fun b => rbind (rmap f l') (fun bs => Ok (b :: bs)))
  end.

(** ** [keras.preprocessing.sequence.pad_sequences]

    [pad_sequences(sequences, maxlen, dtype='int32', padding='pre',
    truncating='pre', value=0.)] allocates a [num_samples x maxlen] array
    filled with [value] and copies every non-empty sequence into its row,
    after truncating it to [maxlen] entries.  Both the side that is padded
    and the side that is truncated are arguments, and both default to
    ['pre']. *)

Module Sequence.

Inductive side : Type := pre | post.

Definition int32_min : Z := - 2 ^ 31.
Definition int32_max : Z := 2 ^ 31 - 1.

Definition is_int32 (z : Z) : bool :=
  (int32_min <=? z)%Z && (z <=? int32_max)%Z.

(** [np.asarray(trunc, dtype='int32')] on a list of Python integers.  An
    entry that does not fit the dtype is refused with [OverflowError]
    (releases of NumPy that wrapped such an entry around instead differ
    only on inputs that no statement below covers). *)
Definition as_int32 (z : Z) : result Z :=
  if is_int32 z then Ok z else Raise OverflowError.

Definition asarray_int32 (s : list Z) : result (list Z) := rmap as_int32 s.

(** Python slices [s[-n:]] and [s[:n]] for [0 <= n].  [-0] is [0], so
    [s[-0:]] is the whole of [s]. *)
Definition slice_last (n : Z) (s : list Z) : list Z :=
  if (n =? 0)%Z then s else skipn (length s - Z.to_nat n) s.

Definition slice_first (n : Z) (s : list Z) : list Z :=
  firstn (Z.to_nat n) s.

(** [row[:len(trunc)] = trunc] and [row[-len(trunc):] = trunc] for a
    non-empty [trunc].  The target slice is clipped to the row; NumPy
    accepts a source of the same length, broadcasts a source of length
    one, and raises [ValueError] otherwise. *)
Definition assign_prefix (row trunc : list Z) : result (list Z) :=
  let k := Nat.min (length trunc) (length row) in
  if (length trunc =? k)%nat then Ok (trunc ++ skipn k row)
  else if (length trunc =? 1)%nat then Ok (repeat (hd 0%Z trunc) k ++ skipn k row)
  else Raise ValueError.

Definition assign_suffix (row trunc : list Z) : result (list Z) :=
  let k := Nat.min (length trunc) (length row) in
  if (length trunc =? k)%nat then Ok (firstn (length row - k) row ++ trunc)
  else if (length trunc =? 1)%nat
       then Ok (firstn (length row - k) row ++ repeat (hd 0%Z trunc) k)
  else Raise ValueError.

(** One iteration of the loop [for idx, s in enumerate(sequences)]: the
    row of [x] that belongs to [s]. *)
Definition pad_row (maxlen : Z) (padding truncating : side) (value : Z)
           (s : list Z) : result (list Z) :=
  let row := repeat value (Z.to_nat maxlen) in
  match s with
  | [] => Ok row
  | _ :: _ =>
      let trunc := match truncating with
                   | pre => slice_last maxlen s
                   | post => slice_first maxlen s
                   end in
      rbind (asarray_int32 trunc) (fun trunc =>
        match trunc with
        | [] => Ok row
        | _ :: _ =>
            match padding with
            | post => assign_prefix row trunc
            | pre => assign_suffix row trunc
            end
        end)
  end.

(** A negative [maxlen] is refused when the array is allocated. *)
Definition pad_sequences (sequences : list (list Z)) (maxlen : Z)
           (padding truncating : side) (value : Z) : result (list (list Z)) :=
  if (maxlen <? 0)%Z then Raise ValueError
  else rmap (pad_row maxlen padding truncating value) sequences.

Definition default_padding : side := pre.
Definition default_truncating : side := pre.
Definition default_value : Z := 0%Z.

End Sequence.

(** ** The Keras backend [K]

  The metric is written against the backend interface: [K.clip],
  [K.round], [K.sum], [K.epsilon] and the element-wise arithmetic of
  tensors.  Scalars are exact rationals here: the operations are the
  real-number operations that the floating-point kernels approximate, and
  a quotient whose divisor is zero has no finite value.  A batch of labels
  or of predictions (a tensor of shape [(batch, 1)]) is the list of its
  entries. *)

Module K.

Definition tensor : Type := list Q.

(** [K.epsilon()], the fuzz factor of the backend: [1e-07] unless the
    user configuration overrides it. *)
Definition epsilon : Q := 1 # 10000000.

Definition clip_scalar (v min_value max_value : Q) : Q :=
  Qmin (Qmax v min_value) max_value.

Definition clip (x : tensor) (min_value max_value : Q) : tensor :=
  map (fun v => clip_scalar v min_value max_value) x.

(** Element-wise rounding to the nearest integer, a tie going to the even
    neighbour. *)
Definition round_scalar (v : Q) : Q :=
  let f := Qfloor v in
  match (v - inject_Z f) ?= (1 # 2) with
  | Lt => inject_Z f
  | Gt => inject_Z (f + 1)
  | Eq => inject_Z (if Z.even f then f else f + 1)
  end.

Definition round (x : tensor) : tensor := map round_scalar x.

Definition sum (x : tensor) : Q := fold_right Qplus 0 x.

(** [x * y] on two tensors of one shape. *)
Definition mul (x y : tensor) : tensor :=
  map (fun xy => fst xy * snd xy) (combine x y).

(** [a / b]: no finite value when the divisor is zero. *)
Definition div (a b : Q) : option Q :=
  if Qeq_bool b 0 then None else Some (a / b).

End K.

(** ** The metric [UrlDetector.f1] *)

Module Metric.

Definition true_positives (y_true y_pred : K.tensor) : Q :=
  K.sum (K.round (K.clip (K.mul y_true y_pred) 0 1)).

Definition possible_positives (y_true : K.tensor) : Q :=
  K.sum (K.round (K.clip y_true 0 1)).

Definition predicted_positives (y_pred : K.tensor) : Q :=
  K.sum (K.round (K.clip y_pred 0 1)).

Definition recall (y_true y_pred : K.tensor) : option Q :=
  K.div (true_positives y_true y_pred)
        (possible_positives y_true + K.epsilon).

Definition precision (y_true y_pred : K.tensor) : option Q :=
  K.div (true_positives y_true y_pred)
        (predicted_positives y_pred + K.epsilon).

Definition f1 (y_true y_pred : K.tensor) : option Q :=
  match precision y_true y_pred with
  | None => None
  | Some precision =>
      match recall y_true y_pred with
      | None => None
      | Some recall =>
          match K.div (precision * recall) (precision + recall + K.epsilon) with
          | None => None
          | Some q => Some (2 * q)
          end
      end
  end.

(** *** The confusion counts the metric is meant to compute

    A label is positive when it is [1]; a prediction is positive when it
    rounds to [1] after clipping to [[0,1]]. *)

Definition actual_positive (t : Q) : bool := Qeq_bool t 1.

Definition predicted_positive (p : Q) : bool :=
  Qeq_bool (K.round_scalar (K.clip_scalar p 0 1)) 1.

Definition count_where (f : bool -> bool -> bool)
           (y_true y_pred : K.tensor) : Q :=
  inject_Z (Z.of_nat (length (filter
    (fun tp => f (actual_positive (fst tp)) (predicted_positive (snd tp)))
    (combine y_true y_pred)))).

Definition TP : K.tensor -> K.tensor -> Q := count_where andb.
Definition FP : K.tensor -> K.tensor -> Q :=
  count_where (fun a p => negb a && p).
Definition FN : K.tensor -> K.tensor -> Q :=
  count_where (fun a p => a && negb p).

Definition P_spec (y_true y_pred : K.tensor) : Q :=
  TP y_true y_pred / (TP y_true y_pred + FP y_true y_pred + K.epsilon).

Definition R_spec (y_true y_pred : K.tensor) : Q :=
  TP y_true y_pred / (TP y_true y_pred + FN y_true y_pred + K.epsilon).

Definition f1_spec (y_true y_pred : K.tensor) : Q :=
  2 * P_spec y_true y_pred * R_spec y_true y_pred
  / (P_spec y_true y_pred + R_spec y_true y_pred + K.epsilon).

(** Labels are binary scalars. *)
Definition binary (t : Q) : Prop := t == 0 \/ t == 1.

(** Whether a value exceeds one half, and the contribution of a sample to a
    count. *)
Definition above_half (p : Q) : bool :=
  if Qlt_le_dec (1 # 2) p then true else false.

Definition indicator (b : bool) : Q := inject_Z (if b then 1 else 0).

End Metric.

(** ** [f1] in single precision

    Keras computes in [float32] unless configured otherwise, and the
    divisions and additions that close [f1] round.  [Binary32.f1] is the
    metric with that rounding: the operations after the three sums are the
    IEEE 754 binary32 operations (24 bits of precision, round to nearest
    even).  The sums themselves enter as whole numbers: an entry of a tensor
    is the rational value of a float; with labels [0] and [1] the products
    [y_true * y_pred] are exact; clipping and rounding give [0.0] or [1.0];
    and a sum of fewer than [2^24] such terms is exact in [float32]. *)

Module Binary32.

Definition prec : Z := 24.
Definition emax : Z := 128.

Definition of_Z (z : Z) : spec_float := binary_normalize prec emax z 0 false.

(** [float32(1e-07)]: [0x33D6BF95]. *)
Definition epsilon : spec_float := S754_finite false 14073749 (-47).

Definition add : spec_float -> spec_float -> spec_float := SFadd prec emax.
Definition mul : spec_float -> spec_float -> spec_float := SFmul prec emax.
Definition div : spec_float -> spec_float -> spec_float := SFdiv prec emax.

Definition value (x : spec_float) : option Q :=
  match x with
  | S754_zero _ => Some 0
  | S754_finite sign m e =>
      Some ((if sign then - (1) else 1) * inject_Z (Zpos m) * 2 ^ e)
  | S754_infinity _ | S754_nan => None
  end.

Definition f1_of_sums (true_positives predicted_positives possible_positives
                       : spec_float) : spec_float :=
  let precision := div true_positives (add predicted_positives epsilon) in
  let recall := div true_positives (add possible_positives epsilon) in
  mul (of_Z 2) (div (mul precision recall) (add (add precision recall) epsilon)).

(** The float that holds a sum of zeros and ones. *)
Definition of_sum (q : Q) : spec_float := of_Z (Qfloor q).

Definition f1 (y_true y_pred : K.tensor) : spec_float :=
  f1_of_sums (of_sum (Metric.true_positives y_true y_pred))
             (of_sum (Metric.predicted_positives y_pred))
             (of_sum (Metric.possible_positives y_true)).

End Binary32.

(** ** Keras models

  What [UrlDetector] builds and what the Keras methods it calls do with
  it.  A [Sequential] model is a list of layers; a model of the functional
  API ([Model(input=..., output=...)]) is given by its input and output
  tensors, each tensor being the expression that computes it. *)

Module Keras.

Inductive activation : Type := relu | sigmoid | linear.

Inductive layer : Type :=
| Embedding (input_dim output_dim input_length : Z)
| Flatten
| Dense (units : Z) (act : activation)
| Convolution1D (nb_filter : Z) (input_shape : Z * Z) (filter_length : Z)
                (act : activation)
| BatchNormalization
| Lambda_sum_1d (output_shape : Z)
| Dropout (rate : Q).

#[warnings="-register-all"]
Inductive sym : Type :=
| Input (shape : Z) (name : string)
| Apply (l : layer) (x : sym)
| Call (m : list layer) (x : sym)
| Concatenate (xs : list sym).

Inductive graph : Type :=
| Sequential (layers : list layer)
| Model (input output : sym).

(** [metrics=['acc', self.f1]]: a metric is a built-in one, named, or a
    function of the labels and predictions of a batch. *)
Inductive metric : Type :=
| acc
| custom (fn : K.tensor -> K.tensor -> option Q).

Record compile_args : Type := {
  optimizer : string;
  loss : string;
  metrics : list metric
}.

(** The value of [model.evaluate]: the loss alone when no metric was
    compiled in, otherwise the list of the loss and the metrics. *)
Inductive evaluation : Type :=
| Scalar (loss_value : Q)
| Scalars (values : list Q).

(** The numerical engine under a model: what the weights are, how a
    network turns a padded document into the input of its output unit,
    how an epoch of training changes the weights, and the scalars it
    reports.  Nothing in [model.py] depends on how these are computed.
    [logistic] is the backend's sigmoid; its values are probabilities. *)
Class Engine : Type := {
  weights : Type;
  initial_weights : graph -> weights;
  output_unit_input : graph -> weights -> list Z -> Q;
  logistic : Q -> Q;
  logistic_range : forall x : Q, 0 <= logistic x <= 1;
  train_epoch : compile_args -> graph -> weights ->
                list (list Z) -> list Q -> weights;
  summary : Type;
  epoch_logs : compile_args -> graph -> weights ->
               list (list Z) * list Q -> list (list Z) * list Q -> summary;
  loss_on : string -> graph -> weights -> list (list Z) -> list Q -> Q;
  metric_on : metric -> graph -> weights -> list (list Z) -> list Q -> Q
}.

End Keras.

(** ** Object state and the outside world *)

Section Detector.

Context {E : Keras.Engine}.

(** A Keras model object: its graph, the arguments of the last [compile]
    (none before the first), and its current weights. *)
Record keras_model : Type := {
  graph : Keras.graph;
  compiled : option Keras.compile_args;
  params : Keras.weights
}.

Record UrlDetector : Type := {
  max_length : Z;
  vocab_size : Z;
  model : keras_model
}.

(** What the module itself prints. *)
Inductive output : Type :=
| print_summary (g : Keras.graph)
| print_accuracy (percent : Q)
| print_f1_score (f1score : Q).

Record world : Type := {
  directories : list string;
  stdout : list output;
  tensorboard : list (string * nat * Keras.summary)
}.

Record state : Type := {
  self : UrlDetector;
  env : world
}.

(** Computations that read and write the state and may raise. *)
Definition M (A : Type) : Type := state -> result A * state.

Definition ret {A : Type} (a : A) : M A := fun s => (Ok a, s).

Definition bind {A B : Type} (c : M A) (k : A -> M B) : M B :=
  fun s => match c s with
           | (Ok a, s') => k a s'
           | (Raise e, s') => (Raise e, s')
           end.

Definition raise {A : Type} (e : exn) : M A := fun s => (Raise e, s).

Definition lift {A : Type} (r : result A) : M A := fun s => (r, s).

Definition get_self : M UrlDetector := fun s => (Ok (self s), s).

Definition set_model (m : keras_model) : M unit :=
  fun s => (Ok tt,
            {| self := {| max_length := max_length (self s);
                          vocab_size := vocab_size (self s);
                          model := m |};
               env := env s |}).

Definition get_env : M world := fun s => (Ok (env s), s).

Definition set_env (w : world) : M unit :=
  fun s => (Ok tt, {| self := self s; env := w |}).

End Detector.

Declare Scope detector_scope.
Delimit Scope detector_scope with detector.
Notation "x <- c ;; k" := (bind c (fun x => k))
(at level 61, c at next level, right associativity) : detector_scope.
Notation "c ;;; k" := (bind c (fun _ => k))
(at level 61, right associativity) : detector_scope.

Local Open Scope detector_scope.

Section Methods.

Context {E : Keras.Engine}.

(** *** Methods of the Keras model held in [self.model] *)

(** [Sequential()]: no layer, not compiled. *)
Definition Sequential_new : keras_model :=
  {| graph := Keras.Sequential [];
     compiled := None;
     params := Keras.initial_weights (Keras.Sequential []) |}.

(** [Model(input=..., output=...)]. *)
Definition Model_new (input output : Keras.sym) : keras_model :=
  {| graph := Keras.Model input output;
     compiled := None;
     params := Keras.initial_weights (Keras.Model input output) |}.

Definition get_model : M keras_model :=
  d <- get_self ;; ret (model d).

(** [self.model.add(layer)]; only a [Sequential] has the method. *)
Definition model_add (l : Keras.layer) : M unit :=
  m <- get_model ;;
  match graph m with
  | Keras.Sequential layers =>
      let g := Keras.Sequential (layers ++ [l]) in
      set_model {| graph := g;
                   compiled := compiled m;
                   params := Keras.initial_weights g |}
  | Keras.Model _ _ => raise AttributeError
  end.

(** [self.model.compile(optimizer=..., loss=..., metrics=...)]. *)
Definition model_compile (args : Keras.compile_args) : M unit :=
  m <- get_model ;;
  set_model {| graph := graph m; compiled := Some args; params := params m |}.

Definition print (o : output) : M unit :=
  w <- get_env ;;
  set_env {| directories := directories w;
             stdout := stdout w ++ [o];
             tensorboard := tensorboard w |}.

(** [print(self.model.summary())]. *)
Definition print_model_summary : M unit :=
  m <- get_model ;; print (print_summary (graph m)).

(** The activation of the output unit, when the graph ends in a [Dense]
    layer. *)
Definition output_activation (g : Keras.graph) : option Keras.activation :=
  match g with
  | Keras.Sequential layers =>
      match last layers Keras.Flatten with
      | Keras.Dense _ act => Some act
      | _ => None
      end
  | Keras.Model _ (Keras.Apply (Keras.Dense _ act) _) => Some act
  | Keras.Model _ _ => None
  end.

Definition apply_activation (act : option Keras.activation) (x : Q) : Q :=
  match act with
  | Some Keras.sigmoid => Keras.logistic x
  | Some Keras.relu => Qmax 0 x
  | Some Keras.linear | None => x
  end.

(** The forward pass on one padded document, in inference mode. *)
Definition network_output (m : keras_model) (doc : list Z) : Q :=
  apply_activation (output_activation (graph m))
                   (Keras.output_unit_input (graph m) (params m) doc).

(** [Sequential.predict_proba(x)].  The method is defined by the class
    [Sequential] alone: a model of the functional API has no such
    attribute.  A [Sequential] without layers cannot be built; on an empty
    batch [predict] returns an empty list, which has no [min]. *)
Definition model_predict_proba (x : list (list Z)) : M (list Q) :=
  m <- get_model ;;
  match graph m with
  | Keras.Model _ _ => raise AttributeError
  | Keras.Sequential [] => raise TypeError
  | Keras.Sequential (_ :: _) =>
      match x with
      | [] => raise AttributeError
      | _ :: _ => ret (map (network_output m) x)
      end
  end.

(** [model.evaluate(x, y)]: needs a compiled model and as many labels as
    documents. *)
Definition model_evaluate (x : list (list Z)) (y : list Q) : M Keras.evaluation :=
  m <- get_model ;;
  match compiled m with
  | None => raise RuntimeError
  | Some args =>
      if negb (length x =? length y)%nat then raise ValueError
      else match x with
           | [] => ret (Keras.Scalars [])
           | _ :: _ =>
               let loss := Keras.loss_on (Keras.loss args) (graph m) (params m) x y in
               match Keras.metrics args with
               | [] => ret (Keras.Scalar loss)
               | ms => ret (Keras.Scalars
                        (loss :: map (fun k => Keras.metric_on k (graph m) (params m) x y) ms))
               end
           end
  end.

(** Callbacks: [TensorBoard(log_dir=...)] writes the logs of every epoch
    under its directory. *)
Inductive callback : Type := TensorBoard (log_dir : string).

Definition on_epoch_end (c : callback) (epoch : nat) (logs : Keras.summary) : M unit :=
  match c with
  | TensorBoard log_dir =>
      w <- get_env ;;
      set_env {| directories := directories w;
                 stdout := stdout w;
                 tensorboard := tensorboard w ++ [(log_dir, epoch, logs)] |}
  end.

Fixpoint callbacks_on_epoch_end (cs : list callback) (epoch : nat)
         (logs : Keras.summary) : M unit :=
  match cs with
  | [] => ret tt
  | c :: cs' => on_epoch_end c epoch logs ;;; callbacks_on_epoch_end cs' epoch logs
  end.

(** [split_at = int(len(x) * (1. - validation_split))]. *)
Definition split_at (n : nat) (validation_split : Q) : nat :=
  Z.to_nat (Qfloor (inject_Z (Z.of_nat n) * (1 - validation_split))).

(** The epochs [epoch, epoch + 1, ...] of the training loop, [remaining]
    of them. *)
Fixpoint fit_loop (args : Keras.compile_args) (callbacks : list callback)
         (train val : list (list Z) * list Q) (epoch remaining : nat) : M unit :=
  match remaining with
  | O => ret tt
  | S remaining' =>
      m <- get_model ;;
      let w := Keras.train_epoch args (graph m) (params m) (fst train) (snd train) in
      set_model {| graph := graph m; compiled := compiled m; params := w |} ;;;
      callbacks_on_epoch_end callbacks epoch
        (Keras.epoch_logs args (graph m) w train val) ;;;
      fit_loop args callbacks train val (S epoch) remaining'
  end.

(** [model.fit(x, y, epochs=..., validation_split=..., callbacks=...)]:
    the validation arrays are sliced off the end of [x] and [y] before
    anything is shuffled. *)
Definition model_fit (x : list (list Z)) (y : list Q) (epochs : nat)
           (validation_split : Q) (callbacks : list callback) : M unit :=
  m <- get_model ;;
  match compiled m with
  | None => raise RuntimeError
  | Some args =>
      if negb (length x =? length y)%nat then raise ValueError
      else
        let k := split_at (length x) validation_split in
            if (if Qlt_le_dec 0 validation_split then
              if Qlt_le_dec validation_split 1 then true else false
            else false)
        then fit_loop args callbacks (firstn k x, firstn k y) (skipn k x, skipn k y)
                      0 epochs
        else fit_loop args callbacks (x, y) ([], []) 0 epochs
  end.

End Methods.

(** ** The class [UrlDetector] *)

Section UrlDetectorMethods.

Context {E : Keras.Engine}.

(** [_build_simple_nn]: embedding, flatten, one sigmoid unit; compiled with
    accuracy as its only metric. *)
Definition _build_simple_nn : M unit :=
  d <- get_self ;;
  set_model Sequential_new ;;;
  model_add (Keras.Embedding (vocab_size d) 32 (max_length d)) ;;;
  model_add Keras.Flatten ;;;
  model_add (Keras.Dense 1 Keras.sigmoid) ;;;
  model_compile {| Keras.optimizer := "adam";
                   Keras.loss := "binary_crossentropy";
                   Keras.metrics := [Keras.acc] |} ;;;
  print_model_summary.

(** [_get_complete_conv_layer]: a convolution ([border_mode='same'],
    [subsample_length=1]), batch normalisation, the sum over the sequence
    axis ([_sum_1d]) and dropout, as a [Sequential] of its own. *)
Definition _get_complete_conv_layer (d : UrlDetector) (filter_length nb_filter : Z)
  : list Keras.layer :=
  [ Keras.Convolution1D nb_filter (max_length d, 32%Z) filter_length Keras.relu;
    Keras.BatchNormalization;
    Keras.Lambda_sum_1d nb_filter;
    Keras.Dropout (1 # 2) ].

(** [_build_big_conv_nn]: four convolution branches over one embedding,
    three dense blocks, one sigmoid unit; compiled with accuracy and [f1]. *)
Definition _build_big_conv_nn (optimizer : string) : M unit :=
  d <- get_self ;;
  let main_input := Keras.Input (max_length d) "main_input" in
  let embedding :=
    Keras.Apply (Keras.Embedding (vocab_size d) 32 (max_length d)) main_input in
  let conv1 := Keras.Call (_get_complete_conv_layer d 2 256) embedding in
  let conv2 := Keras.Call (_get_complete_conv_layer d 3 256) embedding in
  let conv3 := Keras.Call (_get_complete_conv_layer d 4 256) embedding in
  let conv4 := Keras.Call (_get_complete_conv_layer d 5 256) embedding in
  let merged := Keras.Concatenate [conv1; conv2; conv3; conv4] in
  let merged := Keras.Apply Keras.BatchNormalization merged in
  let middle := Keras.Apply (Keras.Dense 1024 Keras.relu) merged in
  let middle := Keras.Apply Keras.BatchNormalization middle in
  let middle := Keras.Apply (Keras.Dropout (1 # 2)) middle in
  let middle := Keras.Apply (Keras.Dense 1024 Keras.relu) middle in
  let middle := Keras.Apply Keras.BatchNormalization middle in
  let middle := Keras.Apply (Keras.Dropout (1 # 2)) middle in
  let middle := Keras.Apply (Keras.Dense 1024 Keras.relu) middle in
  let middle := Keras.Apply Keras.BatchNormalization middle in
  let middle := Keras.Apply (Keras.Dropout (1 # 2)) middle in
  let output := Keras.Apply (Keras.Dense 1 Keras.sigmoid) middle in
  set_model (Model_new main_input output) ;;;
  model_compile {| Keras.optimizer := optimizer;
                   Keras.loss := "binary_crossentropy";
                   Keras.metrics := [Keras.acc; Keras.custom Metric.f1] |} ;;;
  print_model_summary.

(** [build_model]: an [if]/[elif] without [else]. *)
Definition build_model (model : string) : M unit :=
  if String.eqb model "simple_nn" then _build_simple_nn
  else if String.eqb model "big_conv_nn" then _build_big_conv_nn "adam"
  else ret tt.

(** [UrlDetector(model, vocab_size, max_length)]: the attributes are set,
    [self.model] starts as [Sequential()], and [build_model] runs.  [fresh]
    is the object at the moment [build_model] is called. *)
Definition fresh (vocab_size max_length : Z) (w : world) : state :=
  {| self := {| max_length := max_length;
                vocab_size := vocab_size;
                model := Sequential_new |};
     env := w |}.

Definition __init__ (model : string) (vocab_size max_length : Z) (w : world)
  : result unit * state :=
  build_model model (fresh vocab_size max_length w).

(** The detectors [UrlDetector("simple_nn", ...)] and
    [UrlDetector("big_conv_nn", ...)]. *)
Definition simple_nn_detector (vocab_size max_length : Z) (w : world) : state :=
  snd (__init__ "simple_nn" vocab_size max_length w).

Definition big_conv_nn_detector (vocab_size max_length : Z) (w : world) : state :=
  snd (__init__ "big_conv_nn" vocab_size max_length w).

(** [_get_padded_docs]: [pad_sequences(encoded_docs, maxlen=self.max_length,
    padding='post')]; [truncating] and [value] keep their defaults. *)
Definition _get_padded_docs (encoded_docs : list (list Z)) : M (list (list Z)) :=
  d <- get_self ;;
  lift (Sequence.pad_sequences encoded_docs (max_length d) Sequence.post
          Sequence.default_truncating Sequence.default_value).

Definition os_path_exists (path : string) : M bool :=
  w <- get_env ;; ret (existsb (String.eqb path) (directories w)).

Definition os_makedirs (path : string) : M unit :=
  w <- get_env ;;
  set_env {| directories := path :: directories w;
             stdout := stdout w;
             tensorboard := tensorboard w |}.

(** [fit]. *)
Definition fit (encoded_docs : list (list Z)) (labels : list Q) (epochs : nat)
           (verbose : Z) (training_logs : string) : M unit :=
  there <- os_path_exists training_logs ;;
  (if negb there then os_makedirs training_logs else ret tt) ;;;
  let tensorboard := TensorBoard training_logs in
  padded_docs <- _get_padded_docs encoded_docs ;;
  model_fit padded_docs labels epochs (2 # 10) [tensorboard].

(** [evaluate]: the result of [model.evaluate] is unpacked into three
    names. *)
Definition evaluate (encoded_docs : list (list Z)) (labels : list Q) : M unit :=
  padded_docs <- _get_padded_docs encoded_docs ;;
  r <- model_evaluate padded_docs labels ;;
  match r with
  | Keras.Scalars [loss; accuracy; f1score] =>
      print (print_accuracy (accuracy * 100)) ;;;
      print (print_f1_score f1score)
  | Keras.Scalars _ => raise ValueError
  | Keras.Scalar _ => raise TypeError
  end.

(** [predict_proba]. *)
Definition predict_proba (encoded_docs : list (list Z)) : M (list Q) :=
  padded_docs <- _get_padded_docs encoded_docs ;;
  probabilities <- model_predict_proba padded_docs ;;
  ret probabilities.

(** The weights after [e] epochs on the training arrays [train]. *)
Definition weights_after (args : Keras.compile_args) (g : Keras.graph)
           (train : list (list Z) * list Q) (w0 : Keras.weights) (e : nat)
  : Keras.weights :=
  Nat.iter e (fun w => Keras.train_epoch args g w (fst train) (snd train)) w0.

End UrlDetectorMethods.

(** ** A concrete engine

    One inhabitant of [Keras.Engine], used to run the methods on concrete
    inputs: a single rational weight, Keras' [hard_sigmoid] as the logistic
    function. *)

Definition hard_sigmoid (x : Q) : Q := K.clip_scalar ((2 # 10) * x + (1 # 2)) 0 1.

Definition reference_engine : Keras.Engine :=
  {| Keras.weights := Q;
     Keras.initial_weights := fun _ => 1;
     Keras.output_unit_input :=
       fun _ w doc => w * inject_Z (fold_right Z.add 0%Z doc);
     Keras.logistic := hard_sigmoid;
     Keras.logistic_range := fun x =>
       conj (Q.min_glb _ _ _ (Q.le_max_r _ _)
                       (ltac:(unfold Qle; simpl; discriminate) : 0 <= 1))
            (Q.le_min_r _ _);
     Keras.train_epoch := fun _ _ w _ _ => w + 1;
     Keras.summary := Q;
     Keras.epoch_logs := fun _ _ w _ _ => w;
     Keras.loss_on := fun _ _ w _ _ => w;
     Keras.metric_on := fun _ _ w _ _ => w |}.

Definition empty_world {E : Keras.Engine} : world :=
  {| directories := []; stdout := []; tensorboard := [] |}.

(** Documents whose entries are [int32] codes. *)
Definition int32_document (D : list Z) : Prop :=
  Forall (fun z => Sequence.is_int32 z = true) D.

(** The row that the call made by [_get_padded_docs] computes for one
    document: short documents are completed on the right, long ones lose
    their first entries. *)
Definition padded_row (maxlen : Z) (s : list Z) : list Z :=
  if (Z.of_nat (length s) <=? maxlen)%Z
  then s ++ repeat 0%Z (Z.to_nat maxlen - length s)
  else skipn (length s - Z.to_nat maxlen) s.

(** ** The rest of the module

    The shapes of the tensors that flow through the two graphs, and the
    script under [if __name__ == '__main__']. *)

(** Shapes, without the batch axis.  [layer_shape l s] is the shape of the
    output of layer [l] on an input of shape [s], and [None] when the layer
    cannot take that input: an [Embedding] and a [Convolution1D] check the
    shape they were declared with; the convolution ([border_mode='same'],
    [subsample_length=1]) keeps the length; the [Lambda] yields what
    [_sum_1d] yields, which must be the [output_shape] it declares; [Dense]
    replaces the last axis. *)
Module Shape.

Definition shape : Type := list Z.

Definition layer_shape (l : Keras.layer) (s : shape) : option shape :=
  match l, s with
  | Keras.Embedding _ output_dim input_length, [n] =>
      if (n =? input_length)%Z then Some [n; output_dim] else None
  | Keras.Flatten, _ :: _ => Some [fold_right Z.mul 1%Z s]
  | Keras.Dense units _, _ :: _ => Some (removelast s ++ [units])
  | Keras.Convolution1D nb_filter (steps, channels) _ _, [n; c] =>
      if ((n =? steps) && (c =? channels))%Z%bool then Some [n; nb_filter] else None
  | Keras.BatchNormalization, _ => Some s
  | Keras.Lambda_sum_1d output_shape, [_; c] =>
      if (c =? output_shape)%Z then Some [c] else None
  | Keras.Dropout _, _ => Some s
  | _, _ => None
  end.

Fixpoint layers_shape (layers : list Keras.layer) (s : shape) : option shape :=
  match layers with
  | [] => Some s
  | l :: layers' =>
      match layer_shape l s with
      | Some s' => layers_shape layers' s'
      | None => None
      end
  end.

(** [Concatenate] on vectors: the widths add up. *)
Fixpoint concatenate_shape (shapes : list (option shape)) : option Z :=
  match shapes with
  | [] => Some 0%Z
  | Some [d] :: rest =>
      match concatenate_shape rest with
      | Some total => Some (d + total)%Z
      | None => None
      end
  | _ :: _ => None
  end.

Fixpoint sym_shape (t : Keras.sym) : option shape :=
  match t with
  | Keras.Input n _ => Some [n]
  | Keras.Apply l x =>
      match sym_shape x with
      | Some s => layer_shape l s
      | None => None
      end
  | Keras.Call m x =>
      match sym_shape x with
      | Some s => layers_shape m s
      | None => None
      end
  | Keras.Concatenate xs =>
      match xs with
      | [] => None
      | _ :: _ =>
          match concatenate_shape (map sym_shape xs) with
          | Some total => Some [total]
          | None => None
          end
      end
  end.

(** The shape of the input a graph expects, and of the output it gives. *)
Fixpoint sym_input (t : Keras.sym) : option shape :=
  match t with
  | Keras.Input n _ => Some [n]
  | Keras.Apply _ x | Keras.Call _ x => sym_input x
  | Keras.Concatenate xs =>
      match xs with
      | [] => None
      | x :: _ => sym_input x
      end
  end.

Definition graph_input (g : Keras.graph) : option shape :=
  match g with
  | Keras.Sequential (Keras.Embedding _ _ input_length :: _) => Some [input_length]
  | Keras.Sequential _ => None
  | Keras.Model input _ => sym_input input
  end.

Definition graph_output (g : Keras.graph) : option shape :=
  match g with
  | Keras.Sequential layers =>
      match graph_input g with
      | Some s => layers_shape layers s
      | None => None
      end
  | Keras.Model _ output => sym_shape output
  end.

End Shape.

(** Python's [l[-n:]] for a positive [n]: the last [n] items, or all of
    [l] when it has fewer. *)
Definition last_items {A : Type} (n : nat) (l : list A) : list A :=
  skipn (length l - n) l.

(** The script: [UrlDetector("big_conv_nn")], [fit] with its default
    arguments, [evaluate] on the last hundred samples.  [one_hot_urls] and
    [labels] are what the feature generator and [shuffle] hand over. *)
Definition main {E : Keras.Engine} (one_hot_urls : list (list Z)) (labels : list Q)
           (w : world) : result unit * state :=
  match __init__ "big_conv_nn" 87 200 w with
  | (Ok _, url_detector) =>
      (fit one_hot_urls labels 5 1 "training_logs" ;;;
       evaluate (last_items 100 one_hot_urls) (last_items 100 labels)) url_detector
  | (Raise e, s) => (Raise e, s)
  end.

(** ** Concrete inputs *)

(** The state after the first lines of [fit]: the log directory exists. *)
Definition with_directory {E : Keras.Engine} (path : string) (s : state) : state :=
  if existsb (String.eqb path) (directories (env s)) then s
  else {| self := self s;
          env := {| directories := path :: directories (env s);
                    stdout := stdout (env s);
                    tensorboard := tensorboard (env s) |} |}.

(** A detector constructed with an unrecognised name. *)
Definition detector_unbuilt : state :=
  fresh (E := reference_engine) 87 3 empty_world.

(** A detector with [max_length = 2] and the batch used below. *)
Definition detector2 : state :=
  snd (__init__ (E := reference_engine) "simple_nn" 87 2 empty_world).

(** Five samples, two epochs: four samples train, the last one validates. *)
Definition detector3 : state :=
  simple_nn_detector (E := reference_engine) 87 3 empty_world.

Definition five_docs : list (list Z) :=
  [[1]; [2; 3]; [4; 5; 6; 7]; [8]; [9]]%Z.

Definition five_labels : list Q := [1; 0; 1; 0; 0].

Definition simple_nn_args : Keras.compile_args :=
  {| Keras.optimizer := "adam";
     Keras.loss := "binary_crossentropy";
     Keras.metrics := [Keras.acc] |}.

Definition detector_big : state :=
  big_conv_nn_detector (E := reference_engine) 87 3 empty_world.

(** * Properties *)

(** ** Padding *)

Module SequenceFacts.
Import Sequence.

Lemma rmap_ok {A B : Type} (f : A -> result B) (g : A -> B) (l : list A) :
  Forall (fun a => f a = Ok (g a)) l -> rmap f l = Ok (map g l).
Proof.
  induction 1 as [| a l Ha _ IH]; simpl; [reflexivity |].
  rewrite Ha; simpl. rewrite IH; reflexivity.
Qed.

Lemma asarray_int32_ok (s : list Z) :
  int32_document s -> asarray_int32 s = Ok s.
Proof.
  intros H. unfold asarray_int32.
  rewrite (rmap_ok as_int32 (fun z => z)).
  - now rewrite map_id.
  - eapply Forall_impl; [| exact H].
    intros z Hz. unfold as_int32. now rewrite Hz.
Qed.

Lemma int32_document_skipn (n : nat) (s : list Z) :
  int32_document s -> int32_document (skipn n s).
Proof.
  unfold int32_document. rewrite !Forall_forall.
  intros H z Hz. apply H. rewrite <- (firstn_skipn n s).
  apply in_or_app. now right.
Qed.

Lemma skipn_repeat (v : Z) (k n : nat) :
  skipn k (repeat v n) = repeat v (n - k).
Proof.
  revert n; induction k as [| k IH]; intros n.
  - now rewrite Nat.sub_0_r.
  - destruct n as [| n]; simpl; [reflexivity | apply IH].
Qed.

Lemma pad_row_nonempty (maxlen : Z) (padding truncating : side) (value : Z)
      (s : list Z) :
  s <> [] ->
  pad_row maxlen padding truncating value s =
  rbind (asarray_int32 (match truncating with
                        | pre => slice_last maxlen s
                        | post => slice_first maxlen s
                        end))
        (fun trunc =>
           match trunc with
           | [] => Ok (repeat value (Z.to_nat maxlen))
           | _ :: _ =>
               match padding with
               | post => assign_prefix (repeat value (Z.to_nat maxlen)) trunc
               | pre => assign_suffix (repeat value (Z.to_nat maxlen)) trunc
               end
           end).
Proof.
  destruct s; [congruence | reflexivity].
Qed.

Lemma assign_prefix_fits (row trunc : list Z) :
  (length trunc <= length row)%nat ->
  assign_prefix row trunc = Ok (trunc ++ skipn (length trunc) row).
Proof.
  intros H. unfold assign_prefix.
  replace (Nat.min (length trunc) (length row)) with (length trunc) by lia.
  now rewrite Nat.eqb_refl.
Qed.

Lemma pad_row_post_pre (maxlen : Z) (s : list Z) :
  (0 < maxlen)%Z -> int32_document s ->
  pad_row maxlen post pre 0%Z s = Ok (padded_row maxlen s).
Proof.
  intros Hpos Hs. unfold padded_row.
  destruct (list_eq_dec Z.eq_dec s []) as [-> | Hne].
  - simpl. destruct (Z.leb_spec 0 maxlen) as [_ | ?]; [| lia].
    now rewrite Nat.sub_0_r.
  - assert (Hlen : (0 < length s)%nat) by (destruct s; simpl; [congruence | lia]).
    rewrite pad_row_nonempty by assumption.
    unfold slice_last. destruct (Z.eqb_spec maxlen 0) as [? | _]; [lia |].
    rewrite (asarray_int32_ok _ (int32_document_skipn _ _ Hs)). simpl.
    set (t := skipn (length s - Z.to_nat maxlen) s).
    assert (Ht : length t = Nat.min (length s) (Z.to_nat maxlen))
      by (unfold t; rewrite length_skipn; lia).
    destruct t as [| y t'] eqn:Et; [simpl in Ht; lia |].
    rewrite <- Et in *.
    rewrite assign_prefix_fits by (rewrite repeat_length; lia).
    rewrite skipn_repeat.
    destruct (Z.leb_spec (Z.of_nat (length s)) maxlen) as [Hle | Hgt].
    + assert (Hts : t = s).
      { subst t. rewrite Et.
        replace (length s - Z.to_nat maxlen)%nat with 0%nat in Et by lia.
        simpl in Et. congruence. }
      now rewrite Hts.
    + replace (Z.to_nat maxlen - length t)%nat with 0%nat by lia.
      simpl. now rewrite app_nil_r.
Qed.

Lemma pad_sequences_post_pre (maxlen : Z) (docs : list (list Z)) :
  (0 < maxlen)%Z -> Forall int32_document docs ->
  pad_sequences docs maxlen post pre 0%Z = Ok (map (padded_row maxlen) docs).
Proof.
  intros Hpos Hdocs. unfold pad_sequences.
  destruct (Z.ltb_spec maxlen 0) as [? | _]; [lia |].
  apply rmap_ok. eapply Forall_impl; [| exact Hdocs].
  intros s Hs. now apply pad_row_post_pre.
Qed.

(** The call of [_get_padded_docs] on small batches. *)
Example pad_post_pre_rows :
  Sequence.pad_sequences [[1; 2; 3]; [4]; []]%Z 2 Sequence.post Sequence.pre 0%Z
  = Ok [[2; 3]; [4; 0]; [0; 0]]%Z.
Proof. reflexivity. Qed.

Example pad_post_post_rows :
  Sequence.pad_sequences [[1; 2; 3]; [4]; []]%Z 2 Sequence.post Sequence.post 0%Z
  = Ok [[1; 2]; [4; 0]; [0; 0]]%Z.
Proof. reflexivity. Qed.

End SequenceFacts.

Section PaddingTheorems.

Context {E : Keras.Engine}.

Lemma _get_padded_docs_rows (s : state) (docs : list (list Z)) :
  (0 < max_length (self s))%Z ->
  Forall int32_document docs ->
  _get_padded_docs docs s = (Ok (map (padded_row (max_length (self s))) docs), s).
Proof.
  intros Hpos Hdocs. unfold _get_padded_docs, bind, get_self, lift.
  unfold Sequence.default_truncating, Sequence.default_value.
  now rewrite SequenceFacts.pad_sequences_post_pre.
Qed.

(** C1, as the code has it: a document longer than [max_length] keeps its
    LAST [max_length] entries.  [_get_padded_docs] returns (no exception, the
    state untouched) one row per document, and the row of a document [D]
    with more than [max_length] entries is [D] without its first
    [len(D) - max_length] entries: the head is cut, the tail is kept. *)
Theorem long_document_keeps_its_tail (s : state) (docs : list (list Z)) :
  (0 < max_length (self s))%Z ->
  Forall int32_document docs ->
  exists padded,
    _get_padded_docs docs s = (Ok padded, s) /\
    length padded = length docs /\
    forall i D,
      nth_error docs i = Some D ->
      (max_length (self s) < Z.of_nat (length D))%Z ->
      exists row,
        nth_error padded i = Some row /\
        Z.of_nat (length row) = max_length (self s) /\
        row = skipn (length D - Z.to_nat (max_length (self s))) D /\
        firstn (length D - Z.to_nat (max_length (self s))) D ++ row = D.
Proof.
  intros Hpos Hdocs.
  exists (map (padded_row (max_length (self s))) docs).
  split; [now apply _get_padded_docs_rows |].
  split; [apply length_map |].
  intros i D Hi Hlong.
  exists (padded_row (max_length (self s)) D).
  split; [now apply map_nth_error |].
  unfold padded_row.
  destruct (Z.leb_spec (Z.of_nat (length D)) (max_length (self s))); [lia |].
  split; [rewrite length_skipn; lia |].
  split; [reflexivity | apply firstn_skipn].
Qed.

(** C2: a document of at most [max_length] entries is padded on the right
    with [0] to exactly [max_length] entries.  [_get_padded_docs] returns
    one row per document; the row of such a document [D] has [max_length]
    entries, starts with [D], and is [0] from there on. *)
Theorem short_document_right_padded (s : state) (docs : list (list Z)) :
  (0 < max_length (self s))%Z ->
  Forall int32_document docs ->
  exists padded,
    _get_padded_docs docs s = (Ok padded, s) /\
    length padded = length docs /\
    forall i D,
      nth_error docs i = Some D ->
      (Z.of_nat (length D) <= max_length (self s))%Z ->
      exists row,
        nth_error padded i = Some row /\
        Z.of_nat (length row) = max_length (self s) /\
        firstn (length D) row = D /\
        skipn (length D) row = repeat 0%Z (length row - length D).
Proof.
  intros Hpos Hdocs.
  exists (map (padded_row (max_length (self s))) docs).
  split; [now apply _get_padded_docs_rows |].
  split; [apply length_map |].
  intros i D Hi Hshort.
  exists (padded_row (max_length (self s)) D).
  split; [now apply map_nth_error |].
  unfold padded_row.
  destruct (Z.leb_spec (Z.of_nat (length D)) (max_length (self s))); [| lia].
  rewrite length_app, repeat_length.
  split; [lia |].
  split.
  - rewrite firstn_app, Nat.sub_diag, firstn_all. simpl. apply app_nil_r.
  - rewrite skipn_app, Nat.sub_diag, skipn_all. simpl. f_equal. lia.
Qed.

End PaddingTheorems.

(** C1 as stated fails: with [max_length = 2] the document [[1; 2; 3]] is
    padded to [[2; 3]], which is not its first two entries [[1; 2]]. *)
Lemma long_document_loses_its_head :
  fst (_get_padded_docs [[1; 2; 3]%Z] detector2) = Ok [[2; 3]%Z] /\
  [2; 3]%Z <> firstn 2 [1; 2; 3]%Z.
Proof.
  split; [vm_compute; reflexivity | discriminate].
Qed.

Lemma long_document_keeps_its_tail_witness :
  exists padded,
    _get_padded_docs [[1; 2; 3]%Z; [7]%Z] detector2 = (Ok padded, detector2) /\
    length padded = 2%nat /\
    forall i D,
      nth_error [[1; 2; 3]%Z; [7]%Z] i = Some D ->
      (max_length (self detector2) < Z.of_nat (length D))%Z ->
      exists row,
        nth_error padded i = Some row /\
        Z.of_nat (length row) = max_length (self detector2) /\
        row = skipn (length D - Z.to_nat (max_length (self detector2))) D /\
        firstn (length D - Z.to_nat (max_length (self detector2))) D ++ row = D.
Proof.
  apply (long_document_keeps_its_tail detector2 [[1; 2; 3]%Z; [7]%Z]).
  - reflexivity.
  - repeat constructor.
Defined.

Lemma short_document_right_padded_witness :
  exists padded,
    _get_padded_docs [[1; 2; 3]%Z; [7]%Z] detector2 = (Ok padded, detector2) /\
    length padded = 2%nat /\
    forall i D,
      nth_error [[1; 2; 3]%Z; [7]%Z] i = Some D ->
      (Z.of_nat (length D) <= max_length (self detector2))%Z ->
      exists row,
        nth_error padded i = Some row /\
        Z.of_nat (length row) = max_length (self detector2) /\
        firstn (length D) row = D /\
        skipn (length D) row = repeat 0%Z (length row - length D).
Proof.
  apply (short_document_right_padded detector2 [[1; 2; 3]%Z; [7]%Z]).
  - reflexivity.
  - repeat constructor.
Defined.

(** ** The metric *)

Module MetricFacts.
Import Metric.

Lemma Qfloor_unit (c : Q) : 0 <= c -> c < 1 -> Qfloor c = 0%Z.
Proof.
  intros H0 H1.
  pose proof (Qfloor_le c) as Hlo. pose proof (Qlt_floor c) as Hhi.
  assert (Ha : inject_Z (Qfloor c) < inject_Z 1) by (eapply Qle_lt_trans; eauto).
  assert (Hb : inject_Z (-1) < inject_Z (Qfloor c)).
  { rewrite inject_Z_plus in Hhi. change (inject_Z (-1)) with (- (1))%Q.
    change (inject_Z 1) with 1 in Hhi. lra. }
  rewrite <- Zlt_Qlt in Ha, Hb. lia.
Qed.

Lemma Qfloor_one (c : Q) : c == 1 -> Qfloor c = 1%Z.
Proof.
  intros H.
  pose proof (Qfloor_le c) as Hlo. pose proof (Qlt_floor c) as Hhi.
  rewrite inject_Z_plus in Hhi. change (inject_Z 1) with 1 in Hhi.
  assert (Ha : inject_Z (Qfloor c) < inject_Z 2) by (change (inject_Z 2) with 2; lra).
  assert (Hb : inject_Z 0 < inject_Z (Qfloor c)) by (change (inject_Z 0) with 0; lra).
  rewrite <- Zlt_Qlt in Ha, Hb. lia.
Qed.

(** Rounding after clipping to [[0,1]] is the test [p > 0.5]: one half
    itself is a tie and goes to the even neighbour [0]. *)
Lemma round_clip (p : Q) :
  K.round_scalar (K.clip_scalar p 0 1) = indicator (above_half p).
Proof.
  unfold K.clip_scalar, above_half, indicator.
  set (c := Qmin (Qmax p 0) 1).
  assert (Hc0 : 0 <= c) by (apply Q.min_glb; [apply Q.le_max_r | lra]).
  assert (Hc1 : c <= 1) by apply Q.le_min_r.
  destruct (Qlt_le_dec c 1) as [Hlt | Hge].
  - assert (Hcp : c == Qmax p 0).
    { unfold c. apply Q.min_l. apply Qnot_lt_le. intros Hn.
      assert (c == 1) by (unfold c; apply Q.min_r; lra). lra. }
    unfold K.round_scalar. rewrite (Qfloor_unit c Hc0 Hlt).
    destruct (Qlt_le_dec (1 # 2) p) as [Hp | Hp].
    + assert (Hpc : c == p) by (rewrite Hcp; apply Q.max_l; lra).
      assert (Hcmp : (c - inject_Z 0 ?= 1 # 2) = Gt).
      { apply (proj1 (Qgt_alt _ _)). change (inject_Z 0) with 0. lra. }
      now rewrite Hcmp.
    + assert (Hpc : c <= 1 # 2).
      { rewrite Hcp. apply Q.max_lub; lra. }
      destruct (c - inject_Z 0 ?= 1 # 2) eqn:Hcmp; try reflexivity.
      apply (proj2 (Qgt_alt _ _)) in Hcmp. change (inject_Z 0) with 0 in Hcmp. lra.
  - assert (Hc : c == 1) by lra.
    unfold K.round_scalar. rewrite (Qfloor_one c Hc).
    assert (Hcmp : (c - inject_Z 1 ?= 1 # 2) = Lt).
    { apply (proj1 (Qlt_alt _ _)). change (inject_Z 1) with 1. lra. }
    rewrite Hcmp.
    destruct (Qlt_le_dec (1 # 2) p) as [Hp | Hp]; [reflexivity |].
    exfalso. assert (Qmax p 0 <= 1 # 2) by (apply Q.max_lub; lra).
    assert (c <= Qmax p 0) by apply Q.le_min_l. lra.
Qed.

Lemma indicator_nonneg (b : bool) : 0 <= indicator b.
Proof. destruct b; unfold indicator, inject_Z; lra. Qed.

Lemma sum_round_clip_nonneg (x : K.tensor) : 0 <= K.sum (K.round (K.clip x 0 1)).
Proof.
  induction x as [| v x IH]; simpl; [lra |].
  rewrite round_clip. pose proof (indicator_nonneg (above_half v)). lra.
Qed.

Lemma div_positive (a b : Q) : 0 < b -> K.div a b = Some (a / b).
Proof.
  intros Hb. unfold K.div.
  destruct (Qeq_bool b 0) eqn:Hz; [| reflexivity].
  apply Qeq_bool_eq in Hz. lra.
Qed.

Lemma epsilon_positive : 0 < K.epsilon.
Proof. reflexivity. Qed.

Lemma positive_nonzero (a : Q) : 0 < a -> ~ a == 0.
Proof. intros H E. rewrite E in H. now apply Qlt_irrefl in H. Qed.

Lemma quotient_nonneg (a b : Q) : 0 <= a -> 0 < b -> 0 <= a / b.
Proof.
  intros Ha Hb. apply Qle_shift_div_l; [assumption | lra].
Qed.

(** The value of [f1] in terms of the three sums the code computes; none of
    the three divisors can vanish. *)
Lemma f1_value (y_true y_pred : K.tensor) :
  let tp := true_positives y_true y_pred in
  let precision := tp / (predicted_positives y_pred + K.epsilon) in
  let recall := tp / (possible_positives y_true + K.epsilon) in
  0 < predicted_positives y_pred + K.epsilon /\
  0 < possible_positives y_true + K.epsilon /\
  0 < precision + recall + K.epsilon /\
  Metric.precision y_true y_pred = Some precision /\
  Metric.recall y_true y_pred = Some recall /\
  f1 y_true y_pred =
    Some (2 * ((precision * recall) / (precision + recall + K.epsilon))).
Proof.
  intros tp precision recall.
  assert (He : 0 < K.epsilon) by (unfold K.epsilon; lra).
  assert (Htp : 0 <= tp) by apply sum_round_clip_nonneg.
  pose proof (sum_round_clip_nonneg y_pred) as Hpp.
  pose proof (sum_round_clip_nonneg y_true) as Hap.
  fold (predicted_positives y_pred) in Hpp.
  fold (possible_positives y_true) in Hap.
  assert (Hd1 : 0 < predicted_positives y_pred + K.epsilon) by lra.
  assert (Hd2 : 0 < possible_positives y_true + K.epsilon) by lra.
  assert (Hp : 0 <= precision) by (apply quotient_nonneg; assumption).
  assert (Hr : 0 <= recall) by (apply quotient_nonneg; assumption).
  assert (Hd3 : 0 < precision + recall + K.epsilon) by lra.
  assert (Eprec : Metric.precision y_true y_pred = Some precision)
    by (unfold Metric.precision; now rewrite div_positive).
  assert (Erec : Metric.recall y_true y_pred = Some recall)
    by (unfold Metric.recall; now rewrite div_positive).
  repeat split; try assumption.
  unfold f1. rewrite Eprec, Erec. now rewrite div_positive.
Qed.

Lemma indicator_is_one (b : bool) : Qeq_bool (indicator b) 1 = b.
Proof. now destruct b. Qed.

Lemma predicted_positive_above_half (p : Q) :
  predicted_positive p = above_half p.
Proof.
  unfold predicted_positive. rewrite round_clip. apply indicator_is_one.
Qed.

Lemma above_half_proper (a b : Q) : a == b -> above_half a = above_half b.
Proof.
  intros H. unfold above_half.
  destruct (Qlt_le_dec (1 # 2) a), (Qlt_le_dec (1 # 2) b); try reflexivity; lra.
Qed.

Lemma count_where_cons (f : bool -> bool -> bool) (t p : Q) (ys ps : K.tensor) :
  count_where f (t :: ys) (p :: ps) ==
  indicator (f (actual_positive t) (predicted_positive p)) + count_where f ys ps.
Proof.
  unfold count_where, indicator. simpl.
  destruct (f (actual_positive t) (predicted_positive p)); simpl length.
  - rewrite Nat2Z.inj_succ, <- Z.add_1_l, inject_Z_plus. reflexivity.
  - change (inject_Z 0) with 0. lra.
Qed.

Lemma count_where_nil_l (f : bool -> bool -> bool) (ps : K.tensor) :
  count_where f [] ps = 0.
Proof. reflexivity. Qed.

(** What a binary label does to the three sums. *)
Lemma binary_label (t : Q) :
  binary t ->
  exists a : bool,
    actual_positive t = a /\ above_half t = a /\
    forall p, above_half (t * p) = a && above_half p.
Proof.
  intros [H | H].
  - exists false. split; [| split].
    + unfold actual_positive. destruct (Qeq_bool t 1) eqn:E; [| reflexivity].
      apply Qeq_bool_eq in E. lra.
    + rewrite (above_half_proper t 0 H). reflexivity.
    + intros p. rewrite (above_half_proper (t * p) 0); [reflexivity |].
      rewrite H. lra.
  - exists true. split; [| split].
    + unfold actual_positive. now apply Qeq_eq_bool.
    + rewrite (above_half_proper t 1 H). reflexivity.
    + intros p. simpl. apply above_half_proper. rewrite H. lra.
Qed.

(** The sums of the code are the confusion counts: on binary labels,
    [true_positives] is TP, [predicted_positives] is TP + FP and
    [possible_positives] is TP + FN. *)
Lemma confusion_counts (y_true y_pred : K.tensor) :
  Forall binary y_true ->
  length y_true = length y_pred ->
  true_positives y_true y_pred == TP y_true y_pred /\
  predicted_positives y_pred == TP y_true y_pred + FP y_true y_pred /\
  possible_positives y_true == TP y_true y_pred + FN y_true y_pred.
Proof.
  intros Hbin. revert y_pred.
  induction Hbin as [| t ys Ht _ IH]; intros [| p ps] Hlen;
    try discriminate Hlen.
  - unfold true_positives, predicted_positives, possible_positives, TP, FP, FN.
    rewrite !count_where_nil_l. simpl. repeat split; lra.
  - injection Hlen as Hlen.
    destruct (IH ps Hlen) as (Htp & Hpp & Hap).
    destruct (binary_label t Ht) as (a & Ha & Hh & Hmul).
    unfold TP, FP, FN in *. rewrite !count_where_cons.
    rewrite Ha, predicted_positive_above_half.
    unfold true_positives, predicted_positives, possible_positives in *.
    simpl. rewrite !round_clip. rewrite Hmul, Hh.
    rewrite Htp, Hpp, Hap.
    destruct a, (above_half p); unfold indicator; simpl;
      change (inject_Z 1) with 1; change (inject_Z 0) with 0;
      repeat split; lra.
Qed.

Lemma TP_zero_without_predicted (y_true y_pred : K.tensor) :
  Forall (fun p => predicted_positive p = false) y_pred ->
  TP y_true y_pred == 0.
Proof.
  intros H. revert y_true.
  induction H as [| p ps Hp _ IH]; intros [| t ys]; try reflexivity.
  unfold TP in *. rewrite count_where_cons, Hp, andb_false_r, IH.
  unfold indicator. change (inject_Z 0) with 0. lra.
Qed.

Lemma TP_zero_without_actual (y_true y_pred : K.tensor) :
  Forall (fun t => actual_positive t = false) y_true ->
  TP y_true y_pred == 0.
Proof.
  intros H. revert y_pred.
  induction H as [| t ys Ht _ IH]; intros [| p ps]; try reflexivity.
  unfold TP in *. rewrite count_where_cons, Ht, IH.
  unfold indicator. simpl. change (inject_Z 0) with 0. lra.
Qed.

(** The sums on a batch whose labels are all [1] and whose predictions all
    round to [1]: each of them is the batch size. *)
Lemma sums_all_positive (y_true y_pred : K.tensor) :
  Forall (fun t => t == 1) y_true ->
  Forall (fun p => predicted_positive p = true) y_pred ->
  length y_true = length y_pred ->
  let n := inject_Z (Z.of_nat (length y_true)) in
  true_positives y_true y_pred == n /\
  predicted_positives y_pred == n /\
  possible_positives y_true == n.
Proof.
  intros Ht. revert y_pred.
  induction Ht as [| t ys Ht _ IH]; intros [| p ps] Hp Hlen;
    try discriminate Hlen.
  - simpl. unfold true_positives, predicted_positives, possible_positives.
    simpl. change (inject_Z 0) with 0. repeat split; lra.
  - injection Hlen as Hlen. inversion Hp as [| ? ? Hp1 Hps]; subst.
    destruct (IH ps Hps Hlen) as (Htp & Hpp & Hap).
    rewrite predicted_positive_above_half in Hp1.
    cbv zeta in *. simpl length. rewrite Nat2Z.inj_succ, <- Z.add_1_l, inject_Z_plus.
    unfold true_positives, predicted_positives, possible_positives in *.
    simpl. rewrite !round_clip.
    rewrite (above_half_proper (t * p) p) by (rewrite Ht; lra).
    rewrite (above_half_proper t 1 Ht), Hp1.
    rewrite Htp, Hpp, Hap.
    unfold indicator. simpl. change (inject_Z 1) with 1. repeat split; lra.
Qed.

End MetricFacts.

(** C3: on binary labels, [f1] is [2 P R / (P + R + eps)] with
    [P = TP / (TP + FP + eps)] and [R = TP / (TP + FN + eps)].  TP, FP and FN
    count the samples by label and by rounded, clipped prediction, and a
    prediction rounds to [1] after clipping exactly when it exceeds one half;
    [eps] is [K.epsilon()]. *)
Theorem f1_is_smoothed_harmonic_mean (y_true y_pred : K.tensor) :
  Forall Metric.binary y_true ->
  length y_true = length y_pred ->
  (forall p, Metric.predicted_positive p = true <-> 1 # 2 < p) /\
  exists q,
    Metric.f1 y_true y_pred = Some q /\
    q == Metric.f1_spec y_true y_pred.
Proof.
  intros Hbin Hlen. split.
  - intros p. rewrite MetricFacts.predicted_positive_above_half.
    unfold Metric.above_half.
    destruct (Qlt_le_dec (1 # 2) p); split; intros; try assumption;
      try reflexivity; try discriminate; lra.
  - destruct (MetricFacts.f1_value y_true y_pred)
      as (_ & _ & Hden & _ & _ & Hf1).
    destruct (MetricFacts.confusion_counts y_true y_pred Hbin Hlen)
      as (Htp & Hpp & Hap).
    eexists. split; [exact Hf1 |].
    cbv zeta in Hden.
    assert (HP : Metric.true_positives y_true y_pred
                 / (Metric.predicted_positives y_pred + K.epsilon)
                 == Metric.P_spec y_true y_pred)
      by (unfold Metric.P_spec; now rewrite Htp, Hpp).
    assert (HR : Metric.true_positives y_true y_pred
                 / (Metric.possible_positives y_true + K.epsilon)
                 == Metric.R_spec y_true y_pred)
      by (unfold Metric.R_spec; now rewrite Htp, Hap).
    rewrite HP, HR in Hden |- *. unfold Metric.f1_spec.
    field. now apply MetricFacts.positive_nonzero.
Qed.

(** C4: on binary labels, a batch without positive predictions, or without
    positive labels, has precision 0, recall 0 and F1 0, and every divisor
    met on the way (of the precision, of the recall, of F1 itself) is
    strictly positive. *)
Theorem f1_zero_on_degenerate_batch (y_true y_pred : K.tensor) :
  Forall Metric.binary y_true ->
  length y_true = length y_pred ->
  Forall (fun p => Metric.predicted_positive p = false) y_pred \/
  Forall (fun t => Metric.actual_positive t = false) y_true ->
  0 < Metric.predicted_positives y_pred + K.epsilon /\
  0 < Metric.possible_positives y_true + K.epsilon /\
  exists precision recall q,
    Metric.precision y_true y_pred = Some precision /\ precision == 0 /\
    Metric.recall y_true y_pred = Some recall /\ recall == 0 /\
    0 < precision + recall + K.epsilon /\
    Metric.f1 y_true y_pred = Some q /\ q == 0.
Proof.
  intros Hbin Hlen Hdeg.
  destruct (MetricFacts.f1_value y_true y_pred)
    as (Hd1 & Hd2 & Hd3 & Hprec & Hrec & Hf1).
  destruct (MetricFacts.confusion_counts y_true y_pred Hbin Hlen)
    as (Htp & _ & _).
  assert (Hzero : Metric.true_positives y_true y_pred == 0).
  { rewrite Htp. destruct Hdeg.
    - now apply MetricFacts.TP_zero_without_predicted.
    - now apply MetricFacts.TP_zero_without_actual. }
  cbv zeta in *.
  split; [assumption |]. split; [assumption |].
  do 3 eexists.
  split; [exact Hprec |]. split; [rewrite Hzero; field; now apply MetricFacts.positive_nonzero |].
  split; [exact Hrec |]. split; [rewrite Hzero; field; now apply MetricFacts.positive_nonzero |].
  split; [exact Hd3 |]. split; [exact Hf1 |].
  revert Hd3. rewrite Hzero. intros Hd3. field.
  repeat split; apply MetricFacts.positive_nonzero;
    solve [assumption | apply MetricFacts.epsilon_positive].
Qed.

Lemma f1_is_smoothed_harmonic_mean_witness :
  (forall p, Metric.predicted_positive p = true <-> 1 # 2 < p) /\
  exists q,
    Metric.f1 [1; 0; 1; 0] [9 # 10; 6 # 10; 2 # 10; 1 # 2] = Some q /\
    q == Metric.f1_spec [1; 0; 1; 0] [9 # 10; 6 # 10; 2 # 10; 1 # 2].
Proof.
  apply (f1_is_smoothed_harmonic_mean [1; 0; 1; 0] [9 # 10; 6 # 10; 2 # 10; 1 # 2]).
  - repeat (constructor; [first [left; reflexivity | right; reflexivity] |]).
    constructor.
  - reflexivity.
Defined.

Lemma f1_zero_on_degenerate_batch_witness :
  0 < Metric.predicted_positives [1 # 10; 1 # 2; 0] + K.epsilon /\
  0 < Metric.possible_positives [1; 0; 1] + K.epsilon /\
  exists precision recall q,
    Metric.precision [1; 0; 1] [1 # 10; 1 # 2; 0] = Some precision /\
    precision == 0 /\
    Metric.recall [1; 0; 1] [1 # 10; 1 # 2; 0] = Some recall /\
    recall == 0 /\
    0 < precision + recall + K.epsilon /\
    Metric.f1 [1; 0; 1] [1 # 10; 1 # 2; 0] = Some q /\ q == 0.
Proof.
  apply (f1_zero_on_degenerate_batch [1; 0; 1] [1 # 10; 1 # 2; 0]).
  - repeat (constructor; [first [left; reflexivity | right; reflexivity] |]).
    constructor.
  - reflexivity.
  - left. repeat (constructor; [vm_compute; reflexivity |]). constructor.
Defined.

(** *** Single precision

    Facts about the binary32 operations: how a mantissa is shifted and
    rounded, what the float of a count looks like, and the two steps that
    decide the metric of a perfect batch: [n + epsilon] rounds back to [n]
    from [n = 2] on, and a float divided by itself is [1]. *)

Module Binary32Facts.
Import Binary32.
Local Open Scope Z_scope.

Lemma iter_pos_nat {A : Type} (f : A -> A) (p : positive) (x : A) :
  iter_pos f p x = Nat.iter (Pos.to_nat p) f x.
Proof.
  revert x. induction p as [p IH | p IH |]; intros x; cbn [iter_pos].
  - rewrite !IH, Pos2Nat.inj_xI. cbn [Nat.mul].
    rewrite Nat.add_0_r, <- Nat.iter_add, <- Nat.iter_succ_r. reflexivity.
  - rewrite !IH, Pos2Nat.inj_xO. cbn [Nat.mul].
    rewrite Nat.add_0_r, <- Nat.iter_add. reflexivity.
  - reflexivity.
Qed.

Lemma shr_1_nonneg (m : Z) (r s : bool) :
  (0 <= m)%Z ->
  shr_1 {| shr_m := m; shr_r := r; shr_s := s |} =
  {| shr_m := m / 2; shr_r := Z.odd m; shr_s := r || s |}.
Proof.
  intros Hm. rewrite <- Z.div2_div.
  destruct m as [| [p | p |] | p]; try reflexivity. lia.
Qed.

Lemma shr_iter (M : Z) (k : nat) :
  (0 <= M)%Z ->
  Nat.iter (S k) shr_1 {| shr_m := M; shr_r := false; shr_s := false |} =
  {| shr_m := M / 2 ^ Z.of_nat (S k);
     shr_r := Z.odd (M / 2 ^ Z.of_nat k);
     shr_s := negb (M mod 2 ^ Z.of_nat k =? 0)%Z |}.
Proof.
  intros HM. induction k as [| k IH].
  - cbn [Nat.iter]. rewrite shr_1_nonneg by assumption.
    change (2 ^ Z.of_nat 1)%Z with 2%Z. change (2 ^ Z.of_nat 0)%Z with 1%Z.
    now rewrite Z.div_1_r, Z.mod_1_r.
  - rewrite Nat.iter_succ, IH.
    assert (Hp : (0 < 2 ^ Z.of_nat k)%Z) by (apply Z.pow_pos_nonneg; lia).
    assert (Hp1 : (2 ^ Z.of_nat (S k) = 2 ^ Z.of_nat k * 2)%Z)
      by (rewrite Nat2Z.inj_succ, Z.pow_succ_r; lia).
    rewrite shr_1_nonneg by (apply Z.div_pos; lia).
    f_equal.
    + rewrite (Nat2Z.inj_succ (S k)), Z.pow_succ_r by lia.
      rewrite Z.div_div by lia. f_equal. lia.
    + rewrite Hp1, Z.rem_mul_r by lia.
      pose proof (Z.mod_pos_bound M (2 ^ Z.of_nat k) Hp) as Hb.
      pose proof (Z.mod_pos_bound (M / 2 ^ Z.of_nat k) 2 ltac:(lia)) as Hb2.
      rewrite Zodd_mod.
      destruct (Z.eqb_spec (M mod 2 ^ Z.of_nat k) 0) as [E0 | E0];
        destruct (Z.eqb_spec ((M / 2 ^ Z.of_nat k) mod 2) 1) as [E1 | E1];
        cbn [negb orb];
        match goal with
        | |- _ = negb (?a =? 0)%Z => destruct (Z.eqb_spec a 0) as [E2 | E2]
        end; cbn [negb]; try reflexivity; exfalso; nia.
Qed.

Lemma digits2_pos_size (p : positive) : digits2_pos p = Pos.size p.
Proof. induction p; cbn; congruence. Qed.

Lemma digits_of_range (p : positive) (k : Z) :
  (2 ^ (k - 1) <= Zpos p < 2 ^ k)%Z -> (1 <= k)%Z ->
  Zpos (digits2_pos p) = k.
Proof.
  intros [Hlo Hhi] Hk. rewrite digits2_pos_size.
  pose proof (Pos.size_gt p) as Hgt. pose proof (Pos.size_le p) as Hle.
  apply Pos2Z.pos_lt_pos in Hgt. apply Pos2Z.pos_le_pos in Hle.
  rewrite Pos2Z.inj_pow in Hgt, Hle.
  assert (Hd : (1 <= Zpos (Pos.size p))%Z) by lia.
  generalize dependent (Zpos (Pos.size p)). intros d Hgt Hle Hd.
  destruct (Z.lt_trichotomy d k) as [Hlt | [Heq | Hgt']]; [| assumption |].
  - exfalso.
    assert ((2 ^ d <= 2 ^ (k - 1))%Z) by (apply Z.pow_le_mono_r; lia).
    lia.
  - exfalso.
    assert ((2 ^ k <= 2 ^ (d - 1))%Z) by (apply Z.pow_le_mono_r; lia).
    replace d with (Z.succ (d - 1)) in Hle by lia.
    rewrite Z.pow_succ_r in Hle by lia.
    lia.
Qed.

(** A 24-bit mantissa with an exponent in range is already rounded. *)
Lemma binary_round_aux_normal (s : bool) (m : positive) (e : Z) :
  (2 ^ 23 <= Zpos m < 2 ^ 24)%Z -> (-149 <= e <= 104)%Z ->
  binary_round_aux prec emax s (Zpos m) e loc_Exact = S754_finite s m e.
Proof.
  intros Hm He.
  assert (Hd : Zpos (digits2_pos m) = 24%Z) by (apply digits_of_range; lia).
  unfold binary_round_aux, shr_fexp. cbn [Zdigits2 shr_record_of_loc].
  rewrite Hd.
  assert (Hf : (fexp prec emax (24 + e) - e = 0)%Z)
    by (unfold fexp, emin, prec, emax; lia).
  rewrite Hf. cbn [shr shr_m loc_of_shr_record round_nearest_even].
  cbn [Zdigits2 shr_record_of_loc]. rewrite Hd, Hf. cbn [shr shr_m].
  unfold emax, prec. destruct (Z.leb_spec e (128 - 24)); [reflexivity | lia].
Qed.

Lemma shift_pos_value (d p : positive) :
  Zpos (Pos.iter xO p d) = (Zpos p * 2 ^ Zpos d)%Z.
Proof.
  change (Pos.iter xO p d) with (shift_pos d p).
  rewrite shift_pos_correct. change (Z.pow_pos 2 d) with (2 ^ Zpos d)%Z. lia.
Qed.

(** The float of a count: a 24-bit mantissa, an exponent at least -22 for
    a count of two or more. *)
Lemma of_Z_normal (n : Z) :
  (2 <= n < 2 ^ 24)%Z ->
  exists m e,
    of_Z n = S754_finite false m e /\
    (2 ^ 23 <= Zpos m < 2 ^ 24)%Z /\ (-22 <= e <= 0)%Z.
Proof.
  intros Hn. destruct n as [| p | p]; try lia.
  unfold of_Z, binary_normalize, binary_round.
  assert (Hlog : (1 <= Z.log2 (Zpos p) < 24)%Z).
  { split.
    - apply Z.log2_le_pow2; [lia |]. change (2 ^ 1)%Z with 2%Z. lia.
    - apply Z.log2_lt_pow2; lia. }
  pose proof (Z.log2_spec (Zpos p) ltac:(lia)) as Hspec.
  set (k := Z.log2 (Zpos p)) in *.
  assert (Hd : Zpos (digits2_pos p) = (k + 1)%Z).
  { apply digits_of_range; [| lia]. replace (k + 1 - 1)%Z with k by lia.
    replace (k + 1)%Z with (Z.succ k) by lia. exact Hspec. }
  rewrite Hd.
  assert (Hf : fexp prec emax (k + 1 + 0) = (k - 23)%Z)
    by (unfold fexp, emin, prec, emax; lia).
  rewrite Hf. unfold shl_align.
  destruct (k - 23 - 0)%Z as [| q | q] eqn:Eq; try lia.
  - assert (Hk : k = 23%Z) by lia. clearbody k. subst k.
    exists p, 0%Z. split; [| split; [exact Hspec | lia]].
    apply binary_round_aux_normal; [exact Hspec | lia].
  - clearbody k. assert (Hq : Zpos q = (23 - k)%Z) by lia.
    assert (Hval : Zpos (Pos.iter xO p q) = (Zpos p * 2 ^ (23 - k))%Z)
      by (rewrite shift_pos_value, Hq; reflexivity).
    assert (Hpow : (2 ^ 23 = 2 ^ k * 2 ^ (23 - k))%Z)
      by (rewrite <- Z.pow_add_r by lia; f_equal; lia).
    assert (Hpow' : (2 ^ 24 = 2 ^ Z.succ k * 2 ^ (23 - k))%Z)
      by (rewrite <- Z.pow_add_r by lia; f_equal; lia).
    assert (Hpos : (0 < 2 ^ (23 - k))%Z) by (apply Z.pow_pos_nonneg; lia).
    exists (Pos.iter xO p q), (k - 23)%Z. split; [| split; [| lia]].
    + apply binary_round_aux_normal; [| lia]. rewrite Hval. nia.
    + rewrite Hval. nia.
Qed.

(** Adding [epsilon] to a float of at least two leaves it unchanged. *)
Lemma add_epsilon_absorbed (m : positive) (e : Z) :
  (2 ^ 23 <= Zpos m < 2 ^ 24)%Z -> (-22 <= e <= 0)%Z ->
  add (S754_finite false m e) epsilon = S754_finite false m e.
Proof.
  intros Hm He. unfold add, epsilon, SFadd.
  replace (Z.min e (-47)) with (-47)%Z by lia.
  assert (Hc : shl_align 14073749 (-47) (-47) = (14073749%positive, (-47)%Z))
    by reflexivity.
  rewrite Hc.
  destruct (-47 - e)%Z as [| d | d] eqn:Ed; try lia.
  assert (Hd : Zpos d = (e + 47)%Z) by lia.
  assert (Hs : shl_align m e (-47) = (Pos.iter xO m d, (-47)%Z))
    by (unfold shl_align; now rewrite Ed).
  rewrite Hs. cbn [fst cond_Zopp Z.add].
  set (M := (Pos.iter xO m d + 14073749)%positive).
  assert (HM : Zpos M = (Zpos m * 2 ^ Zpos d + 14073749)%Z)
    by (unfold M; rewrite Pos2Z.inj_add, shift_pos_value; reflexivity).
  assert (Hpd : (2 ^ 25 <= 2 ^ Zpos d)%Z) by (apply Z.pow_le_mono_r; lia).
  assert (Hd1 : (2 ^ Zpos d = 2 * 2 ^ (Zpos d - 1))%Z)
    by (rewrite <- Z.pow_succ_r by lia; f_equal; lia).
  assert (Hdig : Zpos (digits2_pos M) = (24 + Zpos d)%Z).
  { apply digits_of_range; [| lia]. rewrite HM.
    replace (24 + Zpos d - 1)%Z with (23 + Zpos d)%Z by lia.
    rewrite !Z.pow_add_r by lia. nia. }
  unfold binary_normalize, binary_round. rewrite Hdig.
  assert (Hf : fexp prec emax (24 + Zpos d + -47) = e)
    by (unfold fexp, emin, prec, emax; lia).
  rewrite Hf. unfold shl_align.
  destruct (e - -47)%Z as [| q | q] eqn:Eq; try lia.
  unfold binary_round_aux, shr_fexp. cbn [Zdigits2 shr_record_of_loc].
  rewrite Hdig, Hf, Eq. cbn [shr].
  assert (Hqd : q = d) by lia. subst q.
  rewrite iter_pos_nat.
  destruct (Pos2Nat.is_succ d) as (k & Hk). rewrite Hk.
  rewrite shr_iter by lia.
  assert (HSk : Z.of_nat (S k) = Zpos d) by (rewrite <- Hk; apply positive_nat_Z).
  assert (Hkd : Z.of_nat k = (Zpos d - 1)%Z) by lia.
  rewrite HSk, Hkd, HM.
  assert (Hq1 : ((Zpos m * 2 ^ Zpos d + 14073749) / 2 ^ Zpos d = Zpos m)%Z).
  { rewrite Z.div_add_l by lia. rewrite Z.div_small by lia. lia. }
  assert (Hq2 : ((Zpos m * 2 ^ Zpos d + 14073749) / 2 ^ (Zpos d - 1)
                 = 2 * Zpos m)%Z).
  { rewrite Hd1. replace (Zpos m * (2 * 2 ^ (Zpos d - 1)))%Z
      with ((2 * Zpos m) * 2 ^ (Zpos d - 1))%Z by lia.
    rewrite Z.div_add_l by lia. rewrite Z.div_small by lia. lia. }
  assert (Hq3 : ((Zpos m * 2 ^ Zpos d + 14073749) mod 2 ^ (Zpos d - 1)
                 = 14073749)%Z).
  { rewrite Hd1. replace (Zpos m * (2 * 2 ^ (Zpos d - 1)) + 14073749)%Z
      with (14073749 + (2 * Zpos m) * 2 ^ (Zpos d - 1))%Z by lia.
    rewrite Z.mod_add by lia. apply Z.mod_small. lia. }
  rewrite Hq1, Hq2, Hq3.
  replace (Z.odd (2 * Zpos m)) with false
    by (symmetry; rewrite Z.odd_mul; reflexivity).
  cbn [shr_m shr_r shr_s Z.eqb negb loc_of_shr_record round_nearest_even].
  cbn [Zdigits2 shr_record_of_loc].
  assert (Hdm : Zpos (digits2_pos m) = 24%Z) by (apply digits_of_range; lia).
  rewrite Hdm.
  assert (Hf2 : (fexp prec emax (24 + (-47 + Zpos d)) - (-47 + Zpos d) = 0)%Z)
    by (unfold fexp, emin, prec, emax; lia).
  rewrite Hf2. cbn [shr shr_m].
  replace (-47 + Zpos d)%Z with e by lia.
  unfold emax, prec. destruct (Z.leb_spec e (128 - 24)); [reflexivity | lia].
Qed.

(** A finite float divided by itself is [1]. *)
Lemma div_self (m : positive) (e : Z) :
  div (S754_finite false m e) (S754_finite false m e) = of_Z 1.
Proof.
  unfold div, SFdiv, SFdiv_core_binary.
  replace (Zdigits2 (Zpos m) + e - (Zdigits2 (Zpos m) + e))%Z with 0%Z by lia.
  replace (e - e)%Z with 0%Z by lia.
  change (Z.min (fexp prec emax 0) 0) with (-24)%Z.
  change (0 - -24)%Z with 24%Z. cbv iota.
  assert (Hdiv : Z.div_eucl (Z.shiftl (Zpos m) 24) (Zpos m) = (2 ^ 24, 0)%Z).
  { rewrite Z.shiftl_mul_pow2 by lia.
    assert (Hqr : forall a b, Z.div_eucl a b = (a / b, a mod b)%Z)
      by (intros a b; unfold Z.div, Z.modulo; now destruct (Z.div_eucl a b)).
    rewrite Hqr, (Z.mul_comm (Zpos m)), Z.div_mul, Z.mod_mul by lia.
    reflexivity. }
  rewrite Hdiv.
  assert (Hloc : new_location (Zpos m) 0 = loc_Exact).
  { unfold new_location, new_location_even, new_location_odd.
    now destruct (Z.even (Zpos m)). }
  rewrite Hloc. reflexivity.
Qed.


(** [epsilon] is the [float32] nearest to [K.epsilon()]. *)
Lemma epsilon_nearest :
  valid_binary prec emax epsilon = true /\
  exists e, value epsilon = Some e /\
            (Qabs (e - K.epsilon) <= 1 # (2 ^ 48))%Q.
Proof.
  split; [reflexivity |]. eexists. split; [reflexivity |].
  vm_compute. discriminate.
Qed.

(** Three equal sums of two or more: the metric is [1]. *)
Lemma f1_of_equal_sums (n : Z) :
  2 <= n < 2 ^ 24 -> f1_of_sums (of_Z n) (of_Z n) (of_Z n) = of_Z 1.
Proof.
  intros Hn. destruct (of_Z_normal n Hn) as (m & e & -> & Hm & He).
  unfold f1_of_sums. rewrite add_epsilon_absorbed by assumption.
  rewrite div_self. reflexivity.
Qed.

(** A sum that is a whole number is held exactly. *)
Lemma of_sum_count (q : Q) (n : nat) :
  (q == inject_Z (Z.of_nat n))%Q -> of_sum q = of_Z (Z.of_nat n).
Proof.
  intros H. unfold of_sum. rewrite H. now rewrite Qfloor_Z.
Qed.

End Binary32Facts.

(** C5, as the code has it in [float32]: on a batch whose labels are all
    [1] and whose predictions all round to [1], the metric is exactly [1]
    when the batch has two samples or more, the [epsilon] of the divisors
    being absorbed by the rounding of [n + epsilon]; on a batch of one such
    sample it is [16777213 / 2^24], the second float below [1]. *)
Theorem f1_on_perfect_positive_batch_binary32 (y_true y_pred : K.tensor) :
  Forall (fun t => t == 1) y_true ->
  Forall (fun p => Metric.predicted_positive p = true) y_pred ->
  length y_true = length y_pred ->
  (1 <= length y_true)%nat ->
  (Z.of_nat (length y_true) < 2 ^ 24)%Z ->
  Binary32.f1 y_true y_pred =
    if (length y_true =? 1)%nat
    then S754_finite false 16777213 (-24)
    else Binary32.of_Z 1.
Proof.
  intros Ht Hp Hlen Hn1 Hn2.
  destruct (MetricFacts.sums_all_positive y_true y_pred Ht Hp Hlen)
    as (Htp & Hpp & Hap).
  cbv zeta in Htp, Hpp, Hap. unfold Binary32.f1.
  rewrite (Binary32Facts.of_sum_count _ _ Htp),
          (Binary32Facts.of_sum_count _ _ Hpp),
          (Binary32Facts.of_sum_count _ _ Hap).
  destruct (Nat.eqb_spec (length y_true) 1) as [-> | Hne].
  - vm_compute. reflexivity.
  - apply Binary32Facts.f1_of_equal_sums. lia.
Qed.

(** C5 as stated fails: on the one-sample batch with label [1] and
    prediction [1] the metric is [16777213 / 2^24], about [0.99999982], and
    not [1]. *)
Lemma f1_on_one_perfect_sample_is_not_one :
  Binary32.f1 [1] [1] = S754_finite false 16777213 (-24) /\
  Binary32.f1 [1] [1] <> Binary32.of_Z 1 /\
  Binary32.value (Binary32.of_Z 1) = Some (1 * inject_Z 8388608 * 2 ^ (-23)) /\
  1 * inject_Z 8388608 * 2 ^ (-23) == 1 /\
  1 * inject_Z 16777213 * 2 ^ (-24) < 1.
Proof.
  split; [vm_compute; reflexivity |].
  split; [vm_compute; discriminate |].
  split; [reflexivity |].
  split; reflexivity.
Qed.

Lemma f1_on_perfect_positive_batch_binary32_witness :
  Binary32.f1 [1; 1; 1] [7 # 10; 1; 51 # 100] =
    if (length [1; 1; 1] =? 1)%nat
    then S754_finite false 16777213 (-24)
    else Binary32.of_Z 1.
Proof.
  apply (f1_on_perfect_positive_batch_binary32 [1; 1; 1] [7 # 10; 1; 51 # 100]).
  - repeat (constructor; [reflexivity |]). constructor.
  - repeat (constructor; [vm_compute; reflexivity |]). constructor.
  - reflexivity.
  - simpl. lia.
  - reflexivity.
Defined.

(** ** The detector *)

Section DetectorTheorems.

Context {E : Keras.Engine}.

(** C8: a name other than ["simple_nn"] and ["big_conv_nn"] matches no
    branch of [build_model]: the call returns without an exception and
    without any effect, so the constructor leaves [self.model] as the
    [Sequential()] it created (no layer, not compiled) and prints nothing. *)
Theorem unknown_architecture_leaves_model_unbuilt
        (name : string) (vocab maxlen : Z) (w : world) (s : state) :
  name <> "simple_nn"%string ->
  name <> "big_conv_nn"%string ->
  build_model name s = (Ok tt, s) /\
  __init__ name vocab maxlen w = (Ok tt, fresh vocab maxlen w) /\
  model (self (fresh vocab maxlen w)) = Sequential_new /\
  graph Sequential_new = Keras.Sequential [] /\
  compiled Sequential_new = None.
Proof.
  intros H1 H2.
  assert (Hb : forall s', build_model name s' = (Ok tt, s')).
  { intros s'. unfold build_model.
    destruct (String.eqb_spec name "simple_nn"); [congruence |].
    destruct (String.eqb_spec name "big_conv_nn"); [congruence |].
    reflexivity. }
  split; [apply Hb |]. split; [apply Hb |]. repeat split.
Qed.



(** C6, on the architecture where it fails: [predict_proba] of a detector
    built with ["big_conv_nn"] never returns probabilities.  Its model is a
    [Model] of the functional API, which has no [predict_proba]; on the
    document [[1; 2; 3]] the call raises [AttributeError]. *)
Theorem predict_proba_raises_on_big_conv_nn :
  (forall vocab maxlen w docs,
      exists e,
        fst (predict_proba docs (big_conv_nn_detector vocab maxlen w)) = Raise e) /\
  fst (predict_proba [[1; 2; 3]%Z] (big_conv_nn_detector 87 200 empty_world))
  = Raise AttributeError.
Proof.
  split.
  - intros vocab maxlen w docs.
    unfold predict_proba, _get_padded_docs, bind, get_self, lift.
    destruct (Sequence.pad_sequences _ _ _ _ _) as [padded | e];
      [exists AttributeError | exists e]; reflexivity.
  - reflexivity.
Qed.

(** The other architecture: on a non-empty batch, [predict_proba] of a
    detector built with ["simple_nn"] returns one value per document, each
    of them in [[0,1]]. *)
Lemma predict_proba_simple_nn (vocab maxlen : Z) (w : world) (docs : list (list Z)) :
  (0 < maxlen)%Z ->
  Forall int32_document docs ->
  docs <> [] ->
  exists probabilities,
    predict_proba docs (simple_nn_detector vocab maxlen w) =
      (Ok probabilities, simple_nn_detector vocab maxlen w) /\
    length probabilities = length docs /\
    Forall (fun p => 0 <= p <= 1) probabilities.
Proof.
  intros Hpos Hdocs Hne.
  set (s := simple_nn_detector vocab maxlen w).
  exists (map (network_output (model (self s)))
              (map (padded_row maxlen) docs)).
  split; [| split].
  - unfold predict_proba, bind.
    rewrite (_get_padded_docs_rows s docs Hpos Hdocs).
    destruct docs as [| D docs']; [congruence | reflexivity].
  - now rewrite !length_map.
  - apply Forall_forall. intros p Hp.
    apply in_map_iff in Hp as (x & <- & _).
    apply Keras.logistic_range.
Qed.


(** *** Training *)

Lemma split_at_fifth (n : nat) : split_at n (2 # 10) = (4 * n / 5)%nat.
Proof.
  unfold split_at.
  assert (H : Qfloor (inject_Z (Z.of_nat n) * (1 - (2 # 10)))
              = (Z.of_nat n * 8 / 10)%Z) by reflexivity.
  rewrite H. apply Nat2Z.inj. rewrite Z2Nat.id by (apply Z.div_pos; lia).
  rewrite Nat2Z.inj_div, Nat2Z.inj_mul.
  change (Z.of_nat 4) with 4%Z. change (Z.of_nat 5) with 5%Z.
  replace (Z.of_nat n * 8)%Z with ((4 * Z.of_nat n) * 2)%Z by lia.
  change 10%Z with (5 * 2)%Z. now rewrite Z.div_mul_cancel_r by lia.
Qed.

(** What the training loop leaves behind: the weights of [remaining] more
    epochs, and one TensorBoard record per epoch under [log_dir]. *)
Lemma fit_loop_run (args : Keras.compile_args) (log_dir : string)
      (train val : list (list Z) * list Q) (remaining : nat) :
  forall (epoch : nat) (s : state),
  exists s',
    fit_loop args [TensorBoard log_dir] train val epoch remaining s = (Ok tt, s') /\
    max_length (self s') = max_length (self s) /\
    vocab_size (self s') = vocab_size (self s) /\
    graph (model (self s')) = graph (model (self s)) /\
    compiled (model (self s')) = compiled (model (self s)) /\
    params (model (self s')) =
      weights_after args (graph (model (self s))) train
                    (params (model (self s))) remaining /\
    directories (env s') = directories (env s) /\
    stdout (env s') = stdout (env s) /\
    tensorboard (env s') =
      tensorboard (env s) ++
      map (fun i =>
             (log_dir, (epoch + i)%nat,
              Keras.epoch_logs args (graph (model (self s)))
                (weights_after args (graph (model (self s))) train
                               (params (model (self s))) (S i))
                train val))
          (seq 0 remaining).
Proof.
  induction remaining as [| r IH]; intros epoch s.
  - exists s. simpl. rewrite app_nil_r. repeat split.
  - cbn [fit_loop].
    unfold bind at 1, get_model, bind at 1, get_self, ret.
    unfold bind at 1, set_model. unfold bind at 1.
    cbn [callbacks_on_epoch_end on_epoch_end].
    unfold bind at 1, bind at 1, get_env, set_env, ret.
    cbn [self env model graph compiled params max_length vocab_size
         directories stdout tensorboard].
    match goal with
    | |- exists s', fit_loop _ _ _ _ _ _ ?s1 = _ /\ _ =>
        destruct (IH (S epoch) s1)
          as (s' & Hrun & Hml & Hvs & Hg & Hc & Hp & Hd & Ho & Htb)
    end.
    cbn [self env model graph compiled params max_length vocab_size
         directories stdout tensorboard] in Hml, Hvs, Hg, Hc, Hp, Hd, Ho, Htb.
    exists s'. split; [exact Hrun |].
    repeat (split; [assumption |]).
    split.
    + rewrite Hp. unfold weights_after. symmetry. apply Nat.iter_succ_r.
    + split; [assumption |]. split; [assumption |].
      rewrite Htb, <- app_assoc. f_equal.
      rewrite <- cons_seq, <- seq_shift, map_cons, map_map. cbn [app].
      rewrite Nat.add_0_r. f_equal.
      apply map_ext. intros i. unfold weights_after.
      rewrite !Nat.iter_succ_r. now rewrite Nat.add_succ_r.
Qed.

Lemma os_path_exists_spec (path : string) (s : state) :
  exists b, os_path_exists path s = (Ok b, s) /\
            (b = true <-> In path (directories (env s))).
Proof.
  eexists. split; [reflexivity |].
  rewrite existsb_exists. split.
  - intros (p & Hin & Heq). apply String.eqb_eq in Heq. now subst.
  - intros Hin. exists path. split; [assumption | apply String.eqb_refl].
Qed.

(** C9: [fit] on documents and aligned labels, with a compiled model.  The
    log directory exists afterwards (it is created when absent, and no
    directory disappears).  With [n] samples and [k = floor(4 n / 5)], the
    model is trained for [epochs] epochs on the first [k] padded documents
    and labels, and validated on the remaining [n - k], the last fifth of
    the samples rounded up, in the order given.  One record per epoch, with
    the summary of that epoch on the two parts, is written to TensorBoard
    under the log directory. *)
Theorem fit_validates_on_the_tail
        (s : state) (docs : list (list Z)) (labels : list Q) (epochs : nat)
        (verbose : Z) (training_logs : string) (args : Keras.compile_args) :
  compiled (model (self s)) = Some args ->
  (0 < max_length (self s))%Z ->
  Forall int32_document docs ->
  length docs = length labels ->
  let x := map (padded_row (max_length (self s))) docs in
  let n := length docs in
  let k := (4 * n / 5)%nat in
  let train := (firstn k x, firstn k labels) in
  let val := (skipn k x, skipn k labels) in
  let g := graph (model (self s)) in
  let w0 := params (model (self s)) in
  exists s',
    fit docs labels epochs verbose training_logs s = (Ok tt, s') /\
    fst train ++ fst val = x /\
    snd train ++ snd val = labels /\
    length (fst val) = (n - k)%nat /\
    length (snd val) = (n - k)%nat /\
    (n <= 5 * (n - k) < n + 5)%nat /\
    (n mod 5 = 0 -> 5 * (n - k) = n)%nat /\
    graph (model (self s')) = g /\
    compiled (model (self s')) = Some args /\
    params (model (self s')) = weights_after args g train w0 epochs /\
    tensorboard (env s') =
      tensorboard (env s) ++
      map (fun e => (training_logs, e,
                     Keras.epoch_logs args g
                       (weights_after args g train w0 (S e)) train val))
          (seq 0 epochs) /\
    In training_logs (directories (env s')) /\
    (forall p, In p (directories (env s)) -> In p (directories (env s'))) /\
    (In training_logs (directories (env s)) ->
     directories (env s') = directories (env s)).
Proof.
  intros Hc Hpos Hdocs Hlen x n k train val g w0.
  (* the directory *)
  set (s1 := if existsb (String.eqb training_logs) (directories (env s))
             then s
             else {| self := self s;
                     env := {| directories := training_logs :: directories (env s);
                               stdout := stdout (env s);
                               tensorboard := tensorboard (env s) |} |}).
  assert (Hself : self s1 = self s) by (unfold s1; now destruct (existsb _ _)).
  assert (Hout : stdout (env s1) = stdout (env s) /\
                 tensorboard (env s1) = tensorboard (env s))
    by (unfold s1; now destruct (existsb _ _)).
  destruct Hout as [_ Htb1].
  destruct (os_path_exists_spec training_logs s) as (b & Hb & Hin).
  assert (Hb' : b = existsb (String.eqb training_logs) (directories (env s)))
    by (unfold os_path_exists, bind, get_env, ret in Hb; congruence).
  assert (Hdir : In training_logs (directories (env s1)) /\
                 (forall p, In p (directories (env s)) ->
                            In p (directories (env s1))) /\
                 (In training_logs (directories (env s)) ->
                  directories (env s1) = directories (env s))).
  { unfold s1. rewrite <- Hb'. destruct b.
    - repeat split; solve [tauto | now apply Hin].
    - cbn [env directories]. repeat split.
      + now left.
      + intros p Hp. now right.
      + intros Habs. apply Hin in Habs. discriminate. }
  (* the training loop *)
  destruct (fit_loop_run args training_logs train val epochs 0 s1)
    as (s' & Hrun & _ & _ & Hg & Hc' & Hp & Hd & _ & Htb).
  rewrite Hself in Hg, Hc', Hp, Htb. rewrite Htb1 in Htb.
  exists s'. split.
  - unfold fit. unfold bind at 1. rewrite Hb. unfold bind at 1.
    assert (Hmk : (if negb b then os_makedirs training_logs else ret tt) s
                  = (Ok tt, s1)).
    { unfold s1. rewrite <- Hb'. now destruct b. }
    rewrite Hmk. unfold bind at 1.
    rewrite (_get_padded_docs_rows s1 docs) by (try rewrite Hself; assumption).
    rewrite Hself. fold x.
    unfold model_fit, bind at 1, get_model, bind at 1, get_self, ret.
    rewrite Hself, Hc.
    assert (Hx : length x = length docs) by (unfold x; apply length_map).
    rewrite !Hx, split_at_fifth, Hlen, Nat.eqb_refl. cbn [negb].
    destruct (Qlt_le_dec 0 (2 # 10)) as [_ | Habs]; [| lra].
    destruct (Qlt_le_dec (2 # 10) 1) as [_ | Habs]; [| lra].
    rewrite <- Hlen. exact Hrun.
  - split; [unfold train, val; cbn [fst snd]; apply firstn_skipn |].
    split; [unfold train, val; cbn [fst snd]; apply firstn_skipn |].
    split; [unfold val; cbn [fst]; unfold x; now rewrite length_skipn, length_map |].
    split; [unfold val; cbn [snd]; now rewrite length_skipn, <- Hlen |].
    split.
    { unfold k. pose proof (Nat.div_mod_eq (4 * n) 5) as Hdm.
      pose proof (Nat.mod_upper_bound (4 * n) 5) as Hub. lia. }
    split.
    { intros Hmod. unfold k. pose proof (Nat.div_mod_eq (4 * n) 5) as Hdm.
      pose proof (Nat.mod_upper_bound (4 * n) 5) as Hub.
      pose proof (Nat.div_mod_eq n 5) as Hn. rewrite Hmod in Hn. lia. }
    split; [exact Hg |]. split; [now rewrite Hc' |].
    split; [exact Hp |]. split.
    + exact Htb.
    + rewrite Hd. exact Hdir.
Qed.

End DetectorTheorems.

(** *** Runs on the reference engine *)

Lemma unknown_architecture_leaves_model_unbuilt_witness :
  build_model "svm" detector2 = (Ok tt, detector2) /\
  __init__ (E := reference_engine) "svm" 87 200 empty_world
    = (Ok tt, fresh 87 200 empty_world) /\
  model (self (fresh (E := reference_engine) 87 200 empty_world)) = Sequential_new /\
  graph (Sequential_new (E := reference_engine)) = Keras.Sequential [] /\
  compiled (Sequential_new (E := reference_engine)) = None.
Proof.
  apply (unknown_architecture_leaves_model_unbuilt
           (E := reference_engine) "svm" 87 200 empty_world detector2).
  - discriminate.
  - discriminate.
Defined.

Lemma fit_validates_on_the_tail_witness :
  let s := detector3 in
  let x := map (padded_row (max_length (self s))) five_docs in
  let n := length five_docs in
  let k := (4 * n / 5)%nat in
  let train := (firstn k x, firstn k five_labels) in
  let val := (skipn k x, skipn k five_labels) in
  let g := graph (model (self s)) in
  let w0 := params (model (self s)) in
  exists s',
    fit five_docs five_labels 2 1 "training_logs" s = (Ok tt, s') /\
    fst train ++ fst val = x /\
    snd train ++ snd val = five_labels /\
    length (fst val) = (n - k)%nat /\
    length (snd val) = (n - k)%nat /\
    (n <= 5 * (n - k) < n + 5)%nat /\
    (n mod 5 = 0 -> 5 * (n - k) = n)%nat /\
    graph (model (self s')) = g /\
    compiled (model (self s')) = Some simple_nn_args /\
    params (model (self s')) = weights_after simple_nn_args g train w0 2 /\
    tensorboard (env s') =
      tensorboard (env s) ++
      map (fun e => ("training_logs"%string, e,
                     Keras.epoch_logs simple_nn_args g
                       (weights_after simple_nn_args g train w0 (S e)) train val))
          (seq 0 2) /\
    In "training_logs"%string (directories (env s')) /\
    (forall p, In p (directories (env s)) -> In p (directories (env s'))) /\
    (In "training_logs"%string (directories (env s)) ->
     directories (env s') = directories (env s)).
Proof.
  apply (fit_validates_on_the_tail
           (E := reference_engine) detector3 five_docs five_labels 2 1
           "training_logs" simple_nn_args).
  - reflexivity.
  - reflexivity.
  - repeat constructor.
  - reflexivity.
Defined.

(** The same run, evaluated: the validation arrays are the last padded
    document and its label, and the two records are under the directory. *)
Lemma fit_five_samples :
  exists s',
    fit five_docs five_labels 2 1 "training_logs" detector3 = (Ok tt, s') /\
    directories (env s') = ["training_logs"%string] /\
    map (fun r => (fst (fst r), snd (fst r))) (tensorboard (env s')) =
      [("training_logs"%string, 0%nat); ("training_logs"%string, 1%nat)] /\
    skipn (4 * 5 / 5) (map (padded_row 3) five_docs) = [[9; 0; 0]%Z].
Proof.
  eexists. split; [vm_compute; reflexivity |]. repeat split.
Qed.


(** * Further properties *)

(** ** Padding, continued *)

Module PaddingFacts.

Lemma padded_row_length (maxlen : Z) (s : list Z) :
  (0 <= maxlen)%Z -> length (padded_row maxlen s) = Z.to_nat maxlen.
Proof.
  intros H. unfold padded_row.
  destruct (Z.leb_spec (Z.of_nat (length s)) maxlen).
  - rewrite length_app, repeat_length. lia.
  - rewrite length_skipn. lia.
Qed.

Lemma padded_row_full (maxlen : Z) (s : list Z) :
  Z.of_nat (length s) = maxlen -> padded_row maxlen s = s.
Proof.
  intros H. unfold padded_row.
  destruct (Z.leb_spec (Z.of_nat (length s)) maxlen); [| lia].
  replace (Z.to_nat maxlen - length s)%nat with 0%nat by lia.
  apply app_nil_r.
Qed.

Lemma padded_row_int32 (maxlen : Z) (s : list Z) :
  int32_document s -> int32_document (padded_row maxlen s).
Proof.
  intros H. unfold padded_row.
  destruct (Z.of_nat (length s) <=? maxlen)%Z.
  - apply Forall_app. split; [assumption |].
    apply Forall_forall. intros z Hz. apply repeat_spec in Hz. now subst.
  - now apply SequenceFacts.int32_document_skipn.
Qed.

(** The padded row is a function of the last [maxlen] entries. *)
Lemma padded_row_last_items (maxlen : Z) (s : list Z) :
  (0 <= maxlen)%Z ->
  padded_row maxlen (last_items (Z.to_nat maxlen) s) = padded_row maxlen s.
Proof.
  intros H. unfold last_items, padded_row.
  rewrite length_skipn.
  destruct (Z.leb_spec (Z.of_nat (length s)) maxlen) as [Hle | Hgt].
  - replace (length s - Z.to_nat maxlen)%nat with 0%nat by lia.
    cbn [skipn]. rewrite Nat.sub_0_r.
    destruct (Z.leb_spec (Z.of_nat (length s)) maxlen); [reflexivity | lia].
  - destruct (Z.leb_spec
                (Z.of_nat (length s - (length s - Z.to_nat maxlen))) maxlen);
      [| lia].
    replace (Z.to_nat maxlen - (length s - (length s - Z.to_nat maxlen)))%nat
      with 0%nat by lia.
    apply app_nil_r.
Qed.

End PaddingFacts.

Section PaddingExtras.

Context {E : Keras.Engine}.

(** Every method starts by padding: two batches with the same padded rows are
    treated alike by [fit], [evaluate] and [predict_proba]. *)
Lemma methods_see_padded_rows (s : state) (docs docs' : list (list Z)) :
  _get_padded_docs docs s = _get_padded_docs docs' s ->
  (forall labels epochs verbose logs,
      fit docs labels epochs verbose logs s = fit docs' labels epochs verbose logs s) /\
  (forall labels, evaluate docs labels s = evaluate docs' labels s) /\
  predict_proba docs s = predict_proba docs' s.
Proof.
  intros H.
  assert (Hany : forall s1, self s1 = self s ->
                 _get_padded_docs docs s1 = _get_padded_docs docs' s1).
  { intros s1 Hs1.
    unfold _get_padded_docs, bind, get_self, lift in H |- *.
    rewrite Hs1. congruence. }
  split; [| split].
  - intros labels epochs verbose logs. unfold fit, bind.
    destruct (os_path_exists logs s) as [[there | e] s0] eqn:Hex; [| reflexivity].
    assert (Hs0 : s0 = s)
      by (unfold os_path_exists, bind, get_env, ret in Hex; congruence).
    subst s0.
    destruct ((if negb there then os_makedirs logs else ret tt) s)
      as [[[] | e] s1] eqn:Hmk; [| reflexivity].
    assert (Hs1 : self s1 = self s).
    { destruct there; cbn [negb] in Hmk.
      - unfold ret in Hmk. congruence.
      - unfold os_makedirs, bind, get_env, set_env in Hmk.
        injection Hmk as <-. reflexivity. }
    now rewrite (Hany s1 Hs1).
  - intros labels. unfold evaluate, bind. now rewrite H.
  - unfold predict_proba, bind. now rewrite H.
Qed.

(** X1: the padded batch is rectangular.  Whatever the lengths of the
    documents, [_get_padded_docs] returns one row per document, every row has
    exactly [max_length] entries, all of them [int32] codes, and the row of
    an empty document is all zeros. *)
Theorem padded_batch_is_rectangular (s : state) (docs : list (list Z)) :
  (0 < max_length (self s))%Z ->
  Forall int32_document docs ->
  exists padded,
    _get_padded_docs docs s = (Ok padded, s) /\
    length padded = length docs /\
    Forall (fun row => Z.of_nat (length row) = max_length (self s)) padded /\
    Forall int32_document padded /\
    (forall i, nth_error docs i = Some [] ->
               nth_error padded i = Some (repeat 0%Z (Z.to_nat (max_length (self s))))).
Proof.
  intros Hpos Hdocs.
  exists (map (padded_row (max_length (self s))) docs).
  split; [now apply _get_padded_docs_rows |].
  split; [apply length_map |].
  split; [| split].
  - apply Forall_forall. intros row Hrow.
    apply in_map_iff in Hrow as (D & <- & _).
    rewrite PaddingFacts.padded_row_length; lia.
  - apply Forall_forall. intros row Hrow.
    apply in_map_iff in Hrow as (D & <- & HD).
    apply PaddingFacts.padded_row_int32.
    rewrite Forall_forall in Hdocs. now apply Hdocs.
  - intros i Hi. rewrite (map_nth_error _ _ _ Hi). f_equal.
    unfold padded_row. cbn [length].
    destruct (Z.leb_spec (Z.of_nat 0) (max_length (self s))); [| lia].
    now rewrite Nat.sub_0_r.
Qed.

(** X2: padding is idempotent.  The batch that [_get_padded_docs] returns
    is left unchanged by a second call. *)
Theorem padding_is_idempotent (s : state) (docs : list (list Z)) :
  (0 < max_length (self s))%Z ->
  Forall int32_document docs ->
  exists padded,
    _get_padded_docs docs s = (Ok padded, s) /\
    _get_padded_docs padded s = (Ok padded, s).
Proof.
  intros Hpos Hdocs.
  exists (map (padded_row (max_length (self s))) docs).
  split; [now apply _get_padded_docs_rows |].
  rewrite _get_padded_docs_rows; try assumption.
  - rewrite map_map. do 2 f_equal. apply map_ext. intros D.
    apply PaddingFacts.padded_row_full.
    rewrite PaddingFacts.padded_row_length; lia.
  - apply Forall_forall. intros row Hrow.
    apply in_map_iff in Hrow as (D & <- & HD).
    apply PaddingFacts.padded_row_int32.
    rewrite Forall_forall in Hdocs. now apply Hdocs.
Qed.

Lemma padded_rows_agree (s : state) (docs docs' : list (list Z)) :
  (0 < max_length (self s))%Z ->
  Forall int32_document docs ->
  Forall int32_document docs' ->
  Forall2 (fun D D' => padded_row (max_length (self s)) D
                       = padded_row (max_length (self s)) D') docs docs' ->
  _get_padded_docs docs s = _get_padded_docs docs' s.
Proof.
  intros Hpos Hd Hd' Hrows.
  rewrite !_get_padded_docs_rows by assumption.
  do 2 f_equal. induction Hrows as [| D D' l l' HD _ IH]; [reflexivity |].
  inversion Hd; inversion Hd'; subst. cbn [map]. rewrite HD. f_equal. now apply IH.
Qed.

(** X3: only the last [max_length] entries of a document reach the network.
    Two batches whose documents agree, one by one, on their last
    [max_length] entries are padded to the same rows, so [fit], [evaluate]
    and [predict_proba] cannot tell them apart: whatever precedes the last
    [max_length] entries of a long document is ignored. *)
Theorem only_the_last_entries_matter (s : state) (docs docs' : list (list Z)) :
  (0 < max_length (self s))%Z ->
  Forall int32_document docs ->
  Forall int32_document docs' ->
  Forall2 (fun D D' => last_items (Z.to_nat (max_length (self s))) D
                       = last_items (Z.to_nat (max_length (self s))) D')
          docs docs' ->
  _get_padded_docs docs s = _get_padded_docs docs' s /\
  (forall labels epochs verbose logs,
      fit docs labels epochs verbose logs s = fit docs' labels epochs verbose logs s) /\
  (forall labels, evaluate docs labels s = evaluate docs' labels s) /\
  predict_proba docs s = predict_proba docs' s.
Proof.
  intros Hpos Hd Hd' Hlast.
  assert (H : _get_padded_docs docs s = _get_padded_docs docs' s).
  { apply padded_rows_agree; try assumption.
    eapply Forall2_impl; [| exact Hlast]. intros D D' HDD. cbv beta in HDD.
    rewrite <- (PaddingFacts.padded_row_last_items _ D) by lia.
    rewrite <- (PaddingFacts.padded_row_last_items _ D') by lia.
    now rewrite HDD. }
  split; [exact H | now apply methods_see_padded_rows].
Qed.

(** X4: the padding value is not told apart from a code [0].  A document and
    the same document followed by zeros (within [max_length] entries) are
    padded to the same row, so [fit], [evaluate] and [predict_proba] treat
    them alike. *)
Theorem trailing_zeros_are_padding (s : state) (docs docs' : list (list Z)) :
  (0 < max_length (self s))%Z ->
  Forall int32_document docs ->
  Forall2 (fun D D' => exists j, D' = D ++ repeat 0%Z j /\
                                 (Z.of_nat (length D') <= max_length (self s))%Z)
          docs docs' ->
  _get_padded_docs docs s = _get_padded_docs docs' s /\
  (forall labels epochs verbose logs,
      fit docs labels epochs verbose logs s = fit docs' labels epochs verbose logs s) /\
  (forall labels, evaluate docs labels s = evaluate docs' labels s) /\
  predict_proba docs s = predict_proba docs' s.
Proof.
  intros Hpos Hd Hzeros.
  assert (Hd' : Forall int32_document docs').
  { clear Hpos. induction Hzeros as [| D D' l l' (j & -> & _) _ IH];
      [constructor |].
    inversion Hd; subst. constructor; [| now apply IH].
    apply Forall_app. split; [assumption |].
    apply Forall_forall. intros z Hz. apply repeat_spec in Hz. now subst. }
  assert (H : _get_padded_docs docs s = _get_padded_docs docs' s).
  { apply padded_rows_agree; try assumption.
    eapply Forall2_impl; [| exact Hzeros]. intros D D' (j & -> & Hlen).
    rewrite length_app, repeat_length in Hlen. unfold padded_row.
    rewrite length_app, repeat_length.
    destruct (Z.leb_spec (Z.of_nat (length D)) (max_length (self s))); [| lia].
    destruct (Z.leb_spec (Z.of_nat (length D + j)) (max_length (self s))); [| lia].
    rewrite <- app_assoc, <- repeat_app. do 2 f_equal. lia. }
  split; [exact H | now apply methods_see_padded_rows].
Qed.

End PaddingExtras.

(** ** The metric, continued *)

Module MetricExtras.
Import Metric.

(** [f1] in terms of the confusion counts (binary labels). *)
Lemma f1_as_spec (y_true y_pred : K.tensor) :
  Forall binary y_true ->
  length y_true = length y_pred ->
  exists q, f1 y_true y_pred = Some q /\ q == f1_spec y_true y_pred.
Proof.
  intros Hbin Hlen.
  destruct (MetricFacts.f1_value y_true y_pred) as (_ & _ & Hden & _ & _ & Hf1).
  destruct (MetricFacts.confusion_counts y_true y_pred Hbin Hlen)
    as (Htp & Hpp & Hap).
  eexists. split; [exact Hf1 |]. cbv zeta in Hden.
  assert (HP : true_positives y_true y_pred
               / (predicted_positives y_pred + K.epsilon) == P_spec y_true y_pred)
    by (unfold P_spec; now rewrite Htp, Hpp).
  assert (HR : true_positives y_true y_pred
               / (possible_positives y_true + K.epsilon) == R_spec y_true y_pred)
    by (unfold R_spec; now rewrite Htp, Hap).
  rewrite HP, HR in Hden |- *. unfold f1_spec.
  field. now apply MetricFacts.positive_nonzero.
Qed.

Lemma sum_app (a b : K.tensor) : K.sum (a ++ b) == K.sum a + K.sum b.
Proof.
  induction a as [| v a IH]; simpl; [lra | rewrite IH; lra].
Qed.

Lemma mul_app (a b c d : K.tensor) :
  length a = length c -> K.mul (a ++ b) (c ++ d) = K.mul a c ++ K.mul b d.
Proof.
  revert c. induction a as [| x a IH]; intros [| y c] H; try discriminate H.
  - reflexivity.
  - injection H as H. unfold K.mul in *. cbn [app combine map].
    now rewrite IH.
Qed.

Lemma sum_round_clip_insert (a b : K.tensor) (v : Q) :
  K.sum (K.round (K.clip (a ++ v :: b) 0 1))
  == K.sum (K.round (K.clip (a ++ b) 0 1)) + indicator (above_half v).
Proof.
  induction a as [| x a IH]; simpl.
  - rewrite MetricFacts.round_clip. lra.
  - rewrite IH. lra.
Qed.

(** The three sums of a batch into which one sample is inserted. *)
Lemma sums_insert (ys1 ys2 ps1 ps2 : K.tensor) (t p : Q) :
  length ys1 = length ps1 ->
  true_positives (ys1 ++ t :: ys2) (ps1 ++ p :: ps2)
    == true_positives (ys1 ++ ys2) (ps1 ++ ps2) + indicator (above_half (t * p)) /\
  predicted_positives (ps1 ++ p :: ps2)
    == predicted_positives (ps1 ++ ps2) + indicator (above_half p) /\
  possible_positives (ys1 ++ t :: ys2)
    == possible_positives (ys1 ++ ys2) + indicator (above_half t).
Proof.
  intros Hlen.
  unfold true_positives, predicted_positives, possible_positives.
  rewrite !mul_app by assumption.
  change (K.mul (t :: ys2) (p :: ps2)) with (t * p :: K.mul ys2 ps2).
  repeat split; apply sum_round_clip_insert.
Qed.

End MetricExtras.

(** X6: true negatives do not count.  Inserting into a batch, at any
    position, a sample whose label is [0] and whose prediction is at most
    one half leaves [f1] unchanged, whatever the other samples are. *)
Theorem true_negatives_do_not_count
        (ys1 ys2 ps1 ps2 : K.tensor) (t p : Q) :
  length ys1 = length ps1 ->
  t == 0 ->
  p <= 1 # 2 ->
  exists q q',
    Metric.f1 (ys1 ++ t :: ys2) (ps1 ++ p :: ps2) = Some q /\
    Metric.f1 (ys1 ++ ys2) (ps1 ++ ps2) = Some q' /\
    q == q'.
Proof.
  intros Hlen Ht Hp.
  destruct (MetricFacts.f1_value (ys1 ++ t :: ys2) (ps1 ++ p :: ps2))
    as (_ & _ & _ & _ & _ & Hq).
  destruct (MetricFacts.f1_value (ys1 ++ ys2) (ps1 ++ ps2))
    as (_ & _ & _ & _ & _ & Hq').
  destruct (MetricExtras.sums_insert ys1 ys2 ps1 ps2 t p Hlen)
    as (Htp & Hpp & Hap).
  assert (H1 : Metric.above_half (t * p) = false).
  { rewrite (MetricFacts.above_half_proper (t * p) 0) by (rewrite Ht; lra).
    reflexivity. }
  assert (H2 : Metric.above_half p = false).
  { unfold Metric.above_half. destruct (Qlt_le_dec (1 # 2) p); [lra | reflexivity]. }
  assert (H3 : Metric.above_half t = false)
    by (rewrite (MetricFacts.above_half_proper t 0 Ht); reflexivity).
  rewrite H1 in Htp. rewrite H2 in Hpp. rewrite H3 in Hap.
  unfold Metric.indicator in Htp, Hpp, Hap.
  change (inject_Z 0) with 0 in Htp, Hpp, Hap.
  rewrite Qplus_0_r in Htp, Hpp, Hap.
  do 2 eexists. split; [exact Hq |]. split; [exact Hq' |].
  cbv zeta. now rewrite Htp, Hpp, Hap.
Qed.

Lemma count_where_threshold (f : bool -> bool -> bool)
      (y_true y_pred y_pred' : K.tensor) :
  Forall2 (fun p p' => 1 # 2 < p <-> 1 # 2 < p') y_pred y_pred' ->
  Metric.count_where f y_true y_pred = Metric.count_where f y_true y_pred'.
Proof.
  intros H. unfold Metric.count_where. do 2 f_equal. revert y_true.
  induction H as [| p p' l l' Hp _ IH]; intros [| t ys]; try reflexivity.
  cbn [combine filter fst snd].
  assert (Hpp : Metric.predicted_positive p = Metric.predicted_positive p').
  { rewrite !MetricFacts.predicted_positive_above_half. unfold Metric.above_half.
    destruct (Qlt_le_dec (1 # 2) p) as [H1 | H1],
             (Qlt_le_dec (1 # 2) p') as [H2 | H2]; try reflexivity.
    - apply Hp in H1. lra.
    - apply Hp in H2. lra. }
  rewrite Hpp.
  destruct (f (Metric.actual_positive t) (Metric.predicted_positive p'));
    cbn [length]; now rewrite IH.
Qed.

(** X7: the metric sees a prediction only through the threshold.  On binary
    labels, two batches of predictions that fall on the same side of one
    half, sample by sample, get the same [f1]: how far a prediction is from
    the threshold plays no part. *)
Theorem f1_sees_only_the_threshold (y_true y_pred y_pred' : K.tensor) :
  Forall Metric.binary y_true ->
  length y_true = length y_pred ->
  Forall2 (fun p p' => 1 # 2 < p <-> 1 # 2 < p') y_pred y_pred' ->
  exists q q',
    Metric.f1 y_true y_pred = Some q /\
    Metric.f1 y_true y_pred' = Some q' /\
    q == q'.
Proof.
  intros Hbin Hlen Hside.
  assert (Hlen' : length y_true = length y_pred')
    by (rewrite Hlen; eapply Forall2_length; eassumption).
  destruct (MetricExtras.f1_as_spec y_true y_pred Hbin Hlen) as (q & Hq & Hs).
  destruct (MetricExtras.f1_as_spec y_true y_pred' Hbin Hlen') as (q' & Hq' & Hs').
  exists q, q'. split; [exact Hq |]. split; [exact Hq' |].
  rewrite Hs, Hs'.
  unfold Metric.f1_spec, Metric.P_spec, Metric.R_spec, Metric.TP, Metric.FP, Metric.FN.
  rewrite !(count_where_threshold _ y_true y_pred y_pred' Hside).
  reflexivity.
Qed.

Lemma true_negatives_do_not_count_witness :
  exists q q',
    Metric.f1 ([1] ++ 0 :: [1]) ([9 # 10] ++ (3 # 10) :: [2 # 10]) = Some q /\
    Metric.f1 ([1] ++ [1]) ([9 # 10] ++ [2 # 10]) = Some q' /\
    q == q'.
Proof.
  apply (true_negatives_do_not_count [1] [1] [9 # 10] [2 # 10] 0 (3 # 10)).
  - reflexivity.
  - reflexivity.
  - discriminate.
Defined.

Lemma f1_sees_only_the_threshold_witness :
  exists q q',
    Metric.f1 [1; 0; 1] [9 # 10; 6 # 10; 2 # 10] = Some q /\
    Metric.f1 [1; 0; 1] [51 # 100; 1; 1 # 2] = Some q' /\
    q == q'.
Proof.
  apply (f1_sees_only_the_threshold [1; 0; 1] [9 # 10; 6 # 10; 2 # 10]
                                    [51 # 100; 1; 1 # 2]).
  - repeat (constructor; [first [left; reflexivity | right; reflexivity] |]).
    constructor.
  - reflexivity.
  - repeat (constructor; [split; intros H; first [reflexivity | discriminate H] |]).
    constructor.
Defined.

(** ** The detector, continued *)

Section DetectorExtras.

Context {E : Keras.Engine}.

(** X8: [build_model] with one of the two names rebuilds from scratch.
    Whatever model the detector held (trained or not), the call leaves the
    hyper-parameters alone and replaces the model by the one a new detector
    with these hyper-parameters gets: compiled, with freshly initialised
    weights.  Its summary is the one thing printed. *)
Theorem build_model_rebuilds (s : state) (name : string) :
  name = "simple_nn"%string \/ name = "big_conv_nn"%string ->
  exists s',
    build_model name s = (Ok tt, s') /\
    max_length (self s') = max_length (self s) /\
    vocab_size (self s') = vocab_size (self s) /\
    model (self s') =
      model (self (snd (__init__ name (vocab_size (self s)) (max_length (self s))
                                 (env s)))) /\
    params (model (self s')) = Keras.initial_weights (graph (model (self s'))) /\
    compiled (model (self s')) <> None /\
    directories (env s') = directories (env s) /\
    tensorboard (env s') = tensorboard (env s) /\
    stdout (env s') = stdout (env s) ++ [print_summary (graph (model (self s')))].
Proof.
  intros Hname. exists (snd (build_model name s)).
  destruct Hname as [-> | ->]; destruct s as [[ml vs m] w];
    (split; [reflexivity |]); cbn; repeat split; discriminate.
Qed.

(** X9: both networks output probabilities.  Whatever the weights, the
    output of a model with the graph of either architecture lies in
    [[0, 1]] on every document: each graph ends in one sigmoid unit. *)
Theorem network_outputs_are_probabilities
        (s : state) (vocab maxlen : Z) (w : world) (doc : list Z) :
  graph (model (self s)) = graph (model (self (simple_nn_detector vocab maxlen w))) \/
  graph (model (self s)) = graph (model (self (big_conv_nn_detector vocab maxlen w))) ->
  0 <= network_output (model (self s)) doc <= 1.
Proof.
  intros [H | H]; unfold network_output; rewrite H; apply Keras.logistic_range.
Qed.

Lemma with_directory_frame (path : string) (s : state) :
  self (with_directory path s) = self s /\
  stdout (env (with_directory path s)) = stdout (env s) /\
  tensorboard (env (with_directory path s)) = tensorboard (env s) /\
  In path (directories (env (with_directory path s))) /\
  (forall p, In p (directories (env s)) ->
             In p (directories (env (with_directory path s)))) /\
  with_directory path (with_directory path s) = with_directory path s.
Proof.
  unfold with_directory.
  destruct (existsb (String.eqb path) (directories (env s))) eqn:Hex.
  - repeat split; try tauto.
    + apply existsb_exists in Hex as (p & Hin & Heq).
      apply String.eqb_eq in Heq. now subst.
    + now rewrite Hex.
  - cbn [self env directories stdout tensorboard existsb].
    rewrite String.eqb_refl. cbn [orb].
    repeat split; [now left | intros p Hp; now right].
Qed.

Lemma with_directory_present (path : string) (s : state) :
  In path (directories (env s)) -> with_directory path s = s.
Proof.
  intros Hin. unfold with_directory.
  assert (H : existsb (String.eqb path) (directories (env s)) = true).
  { apply existsb_exists. exists path. split; [assumption | apply String.eqb_refl]. }
  now rewrite H.
Qed.

(** [fit] up to the call of [model.fit]. *)
Lemma fit_prologue (s : state) (docs : list (list Z)) (labels : list Q)
      (epochs : nat) (verbose : Z) (training_logs : string) :
  (0 < max_length (self s))%Z ->
  Forall int32_document docs ->
  fit docs labels epochs verbose training_logs s =
  model_fit (map (padded_row (max_length (self s))) docs) labels epochs (2 # 10)
            [TensorBoard training_logs] (with_directory training_logs s).
Proof.
  intros Hpos Hdocs.
  unfold fit, os_path_exists, with_directory, bind, get_env, ret.
  destruct (existsb (String.eqb training_logs) (directories (env s)));
    cbn [negb].
  - now rewrite (_get_padded_docs_rows s docs Hpos Hdocs).
  - unfold os_makedirs, bind, get_env, set_env.
    now rewrite _get_padded_docs_rows.
Qed.

(** What a successful [fit] leaves behind. *)
Lemma fit_run (s : state) (docs : list (list Z)) (labels : list Q)
      (epochs : nat) (verbose : Z) (training_logs : string)
      (args : Keras.compile_args) :
  compiled (model (self s)) = Some args ->
  (0 < max_length (self s))%Z ->
  Forall int32_document docs ->
  length docs = length labels ->
  let x := map (padded_row (max_length (self s))) docs in
  let k := (4 * length docs / 5)%nat in
  let train := (firstn k x, firstn k labels) in
  let val := (skipn k x, skipn k labels) in
  let g := graph (model (self s)) in
  let w0 := params (model (self s)) in
  exists s',
    fit docs labels epochs verbose training_logs s = (Ok tt, s') /\
    max_length (self s') = max_length (self s) /\
    vocab_size (self s') = vocab_size (self s) /\
    graph (model (self s')) = g /\
    compiled (model (self s')) = Some args /\
    params (model (self s')) = weights_after args g train w0 epochs /\
    directories (env s') = directories (env (with_directory training_logs s)) /\
    stdout (env s') = stdout (env s) /\
    tensorboard (env s') =
      tensorboard (env s) ++
      map (fun e => (training_logs, e,
                     Keras.epoch_logs args g
                       (weights_after args g train w0 (S e)) train val))
          (seq 0 epochs).
Proof.
  intros Hc Hpos Hdocs Hlen x k train val g w0.
  pose proof (with_directory_frame training_logs s) as (Hself & Hout & Htb1 & _).
  destruct (fit_loop_run args training_logs train val epochs 0
                         (with_directory training_logs s))
    as (s' & Hrun & Hml & Hvs & Hg & Hc' & Hp & Hd & Ho & Htb).
  rewrite Hself in Hml, Hvs, Hg, Hc', Hp, Htb. rewrite Htb1 in Htb.
  rewrite Hout in Ho.
  exists s'. split.
  - rewrite fit_prologue by assumption. fold x.
    unfold model_fit, bind at 1, get_model, bind at 1, get_self, ret.
    rewrite Hself, Hc.
    assert (Hx : length x = length docs) by (unfold x; apply length_map).
    rewrite !Hx, split_at_fifth, Hlen, Nat.eqb_refl. cbn [negb].
    destruct (Qlt_le_dec 0 (2 # 10)) as [_ | Habs]; [| lra].
    destruct (Qlt_le_dec (2 # 10) 1) as [_ | Habs]; [| lra].
    rewrite <- Hlen. exact Hrun.
  - split; [exact Hml |]. split; [exact Hvs |]. split; [exact Hg |].
    split; [now rewrite Hc' |]. split; [exact Hp |]. split; [exact Hd |].
    split; [exact Ho | exact Htb].
Qed.

Lemma model_fit_refuses (s : state) (x : list (list Z)) (y : list Q) (epochs : nat)
      (validation_split : Q) (callbacks : list callback) :
  (compiled (model (self s)) = None ->
   model_fit x y epochs validation_split callbacks s = (Raise RuntimeError, s)) /\
  (compiled (model (self s)) <> None -> length x <> length y ->
   model_fit x y epochs validation_split callbacks s = (Raise ValueError, s)).
Proof.
  unfold model_fit, get_model, get_self, bind, ret, raise.
  cbv beta iota. split.
  - intros ->. reflexivity.
  - intros Hc Hlen. destruct (compiled (model (self s))); [| congruence].
    apply Nat.eqb_neq in Hlen. now rewrite Hlen.
Qed.

Lemma model_evaluate_refuses (s : state) (x : list (list Z)) (y : list Q) :
  (compiled (model (self s)) = None ->
   model_evaluate x y s = (Raise RuntimeError, s)) /\
  (compiled (model (self s)) <> None -> length x <> length y ->
   model_evaluate x y s = (Raise ValueError, s)).
Proof.
  unfold model_evaluate, get_model, get_self, bind, ret, raise.
  cbv beta iota. split.
  - intros ->. reflexivity.
  - intros Hc Hlen. destruct (compiled (model (self s))); [| congruence].
    apply Nat.eqb_neq in Hlen. now rewrite Hlen.
Qed.

(** X11: a detector whose model was never compiled fails late.  After a
    construction with an unrecognised name (or in any state without compiled
    model), [fit] raises [RuntimeError], but only after it has created the
    log directory; nothing is trained or logged.  [evaluate] raises
    [RuntimeError] as well, and changes nothing. *)
Theorem uncompiled_detector_fails_late
        (s : state) (docs : list (list Z)) (labels : list Q) (epochs : nat)
        (verbose : Z) (training_logs : string) :
  compiled (model (self s)) = None ->
  (0 < max_length (self s))%Z ->
  Forall int32_document docs ->
  fit docs labels epochs verbose training_logs s
    = (Raise RuntimeError, with_directory training_logs s) /\
  In training_logs (directories (env (with_directory training_logs s))) /\
  self (with_directory training_logs s) = self s /\
  tensorboard (env (with_directory training_logs s)) = tensorboard (env s) /\
  evaluate docs labels s = (Raise RuntimeError, s).
Proof.
  intros Hc Hpos Hdocs.
  pose proof (with_directory_frame training_logs s) as (Hself & _ & Htb & Hin & _).
  split; [| split; [exact Hin | split; [exact Hself | split; [exact Htb |]]]].
  - rewrite fit_prologue by assumption.
    apply model_fit_refuses. now rewrite Hself.
  - unfold evaluate, bind. rewrite (_get_padded_docs_rows s docs Hpos Hdocs).
    now rewrite (proj1 (model_evaluate_refuses s _ labels) Hc).
Qed.

(** X12: labels that are not aligned with the documents are refused, after
    the directory was made.  With a compiled model and a number of labels
    different from the number of documents, [fit] raises [ValueError]: the
    weights are untouched and nothing is logged, but the log directory
    exists.  [evaluate] raises [ValueError] and changes nothing. *)
Theorem misaligned_labels_are_refused
        (s : state) (docs : list (list Z)) (labels : list Q) (epochs : nat)
        (verbose : Z) (training_logs : string) (args : Keras.compile_args) :
  compiled (model (self s)) = Some args ->
  (0 < max_length (self s))%Z ->
  Forall int32_document docs ->
  length docs <> length labels ->
  fit docs labels epochs verbose training_logs s
    = (Raise ValueError, with_directory training_logs s) /\
  In training_logs (directories (env (with_directory training_logs s))) /\
  self (with_directory training_logs s) = self s /\
  tensorboard (env (with_directory training_logs s)) = tensorboard (env s) /\
  evaluate docs labels s = (Raise ValueError, s).
Proof.
  intros Hc Hpos Hdocs Hlen.
  pose proof (with_directory_frame training_logs s) as (Hself & _ & Htb & Hin & _).
  assert (Hne : length (map (padded_row (max_length (self s))) docs)
                <> length labels) by now rewrite length_map.
  assert (Hsome : compiled (model (self s)) <> None) by congruence.
  split; [| split; [exact Hin | split; [exact Hself | split; [exact Htb |]]]].
  - rewrite fit_prologue by assumption.
    apply model_fit_refuses; [now rewrite Hself | exact Hne].
  - unfold evaluate, bind. rewrite (_get_padded_docs_rows s docs Hpos Hdocs).
    now rewrite (proj2 (model_evaluate_refuses s _ labels) Hsome Hne).
Qed.

(** X13: training accumulates.  A second [fit] on the same data continues
    from the weights the first one left: after [fit] with [e1] epochs and
    [fit] with [e2] epochs the weights are those of [e1 + e2] epochs, the
    graph and the compile arguments are unchanged, the directory is listed
    as after the first call, and the second call adds [e2] TensorBoard
    records whose epoch numbers start again at [0]. *)
Theorem training_accumulates
        (s : state) (docs : list (list Z)) (labels : list Q) (e1 e2 : nat)
        (verbose : Z) (training_logs : string) (args : Keras.compile_args) :
  compiled (model (self s)) = Some args ->
  (0 < max_length (self s))%Z ->
  Forall int32_document docs ->
  length docs = length labels ->
  let x := map (padded_row (max_length (self s))) docs in
  let k := (4 * length docs / 5)%nat in
  let train := (firstn k x, firstn k labels) in
  let val := (skipn k x, skipn k labels) in
  let g := graph (model (self s)) in
  let w0 := params (model (self s)) in
  exists s1 s2,
    fit docs labels e1 verbose training_logs s = (Ok tt, s1) /\
    fit docs labels e2 verbose training_logs s1 = (Ok tt, s2) /\
    graph (model (self s2)) = g /\
    compiled (model (self s2)) = Some args /\
    params (model (self s2)) = weights_after args g train w0 (e1 + e2) /\
    directories (env s2) = directories (env s1) /\
    tensorboard (env s2) =
      tensorboard (env s1) ++
      map (fun e => (training_logs, e,
                     Keras.epoch_logs args g
                       (weights_after args g train w0 (e1 + S e)) train val))
          (seq 0 e2).
Proof.
  intros Hc Hpos Hdocs Hlen x k train val g w0.
  destruct (fit_run s docs labels e1 verbose training_logs args Hc Hpos Hdocs Hlen)
    as (s1 & Hrun1 & Hml1 & _ & Hg1 & Hc1 & Hp1 & Hd1 & _ & _).
  assert (Hpos1 : (0 < max_length (self s1))%Z) by (rewrite Hml1; assumption).
  destruct (fit_run s1 docs labels e2 verbose training_logs args Hc1 Hpos1 Hdocs Hlen)
    as (s2 & Hrun2 & _ & _ & Hg2 & Hc2 & Hp2 & Hd2 & _ & Htb2).
  cbv zeta in Hg1, Hp1, Hg2, Hp2, Htb2.
  rewrite Hml1, Hg1, Hp1 in Hp2, Htb2. rewrite Hg1 in Hg2.
  fold x in Hp1, Hp2, Htb2. fold k in Hp1, Hp2, Htb2.
  assert (Hiter : forall a b,
             weights_after args g train (weights_after args g train w0 a) b
             = weights_after args g train w0 (a + b)).
  { intros a b. unfold weights_after. rewrite Nat.add_comm. symmetry.
    apply Nat.iter_add. }
  exists s1, s2. split; [exact Hrun1 |]. split; [exact Hrun2 |].
  split; [exact Hg2 |]. split; [exact Hc2 |].
  split; [rewrite Hp2; apply Hiter |].
  split.
  - rewrite Hd2. f_equal. f_equal. apply with_directory_present.
    rewrite Hd1.
    now destruct (with_directory_frame training_logs s) as (_ & _ & _ & Hin & _).
  - rewrite Htb2. f_equal. apply map_ext. intros e.
    fold g. fold train. fold val. fold w0. now rewrite Hiter.
Qed.

(** What a successful [evaluate] prints: the model was compiled with two
    metrics. *)
Lemma evaluate_run (s : state) (docs : list (list Z)) (labels : list Q)
      (args : Keras.compile_args) (m1 m2 : Keras.metric) :
  compiled (model (self s)) = Some args ->
  Keras.metrics args = [m1; m2] ->
  (0 < max_length (self s))%Z ->
  Forall int32_document docs ->
  docs <> [] ->
  length docs = length labels ->
  let x := map (padded_row (max_length (self s))) docs in
  let on := fun k => Keras.metric_on k (graph (model (self s)))
                       (params (model (self s))) x labels in
  evaluate docs labels s =
  (Ok tt,
   {| self := self s;
      env := {| directories := directories (env s);
                stdout := stdout (env s) ++ [print_accuracy (on m1 * 100);
                                             print_f1_score (on m2)];
                tensorboard := tensorboard (env s) |} |}).
Proof.
  intros Hc Hm Hpos Hdocs Hne Hlen x on.
  assert (Hrun : model_evaluate x labels s =
                 (Ok (Keras.Scalars
                        [Keras.loss_on (Keras.loss args) (graph (model (self s)))
                           (params (model (self s))) x labels;
                         on m1; on m2]), s)).
  { unfold model_evaluate, get_model, get_self, bind, ret.
    unfold x at 1. rewrite Hc, Hm, length_map, Hlen, Nat.eqb_refl.
    destruct docs; [congruence | reflexivity]. }
  unfold evaluate, bind.
  rewrite (_get_padded_docs_rows s docs Hpos Hdocs). fold x. rewrite Hrun.
  clearbody x on.
  unfold print, bind, get_env, set_env, ret.
  cbn [env self stdout directories tensorboard].
  now rewrite <- app_assoc.
Qed.

Lemma last_items_length {A : Type} (n : nat) (l : list A) :
  length (last_items n l) = Nat.min n (length l).
Proof. unfold last_items. rewrite length_skipn. lia. Qed.

(** X14: the script.  On a non-empty data set of [int32] documents with
    aligned labels the script runs to its end: it builds the convolutional
    network for 200 entries, trains it for five epochs on the first
    [floor(4 n / 5)] samples, and prints the summary of the network, then
    the accuracy (times 100) and the F1 score of the trained network on the
    last hundred samples.  These are all held-out samples when there are at
    least 496 samples; with 2 to 495 samples the first evaluated sample is
    one the network was trained on. *)
Theorem main_run (one_hot_urls : list (list Z)) (labels : list Q) (w : world) :
  Forall int32_document one_hot_urls ->
  one_hot_urls <> [] ->
  length one_hot_urls = length labels ->
  let n := length one_hot_urls in
  let k := (4 * n / 5)%nat in
  let d0 := big_conv_nn_detector 87 200 w in
  let g := graph (model (self d0)) in
  let args := {| Keras.optimizer := "adam"%string;
                 Keras.loss := "binary_crossentropy"%string;
                 Keras.metrics := [Keras.acc; Keras.custom Metric.f1] |} in
  let x := map (padded_row 200) one_hot_urls in
  let w5 := weights_after args g (firstn k x, firstn k labels)
                          (params (model (self d0))) 5 in
  let held := map (padded_row 200) (last_items 100 one_hot_urls) in
  exists s',
    main one_hot_urls labels w = (Ok tt, s') /\
    graph (model (self s')) = g /\
    params (model (self s')) = w5 /\
    stdout (env s') =
      stdout w ++
      [print_summary g;
       print_accuracy (Keras.metric_on Keras.acc g w5 held
                                       (last_items 100 labels) * 100);
       print_f1_score (Keras.metric_on (Keras.custom Metric.f1) g w5 held
                                       (last_items 100 labels))] /\
    In "training_logs"%string (directories (env s')) /\
    length (tensorboard (env s')) = (length (tensorboard w) + 5)%nat /\
    ((496 <= n)%nat ->
     exists trained_before,
       skipn k one_hot_urls = trained_before ++ last_items 100 one_hot_urls) /\
    ((2 <= n < 496)%nat ->
     exists D, nth_error (firstn k one_hot_urls) (n - 100) = Some D /\
               nth_error (last_items 100 one_hot_urls) 0 = Some D).
Proof.
  intros Hdocs Hne Hlen n k d0 g args x w5 held.
  assert (Hn : (1 <= n)%nat)
    by (unfold n; destruct one_hot_urls; [congruence | simpl; lia]).
  assert (Hinit : __init__ "big_conv_nn" 87 200 w = (Ok tt, d0)) by reflexivity.
  assert (Hc0 : compiled (model (self d0)) = Some args) by reflexivity.
  assert (Hpos0 : (0 < max_length (self d0))%Z) by reflexivity.
  destruct (fit_run d0 one_hot_urls labels 5 1 "training_logs" args
                    Hc0 Hpos0 Hdocs Hlen)
    as (s1 & Hfit & Hml & _ & Hg & Hc & Hp & Hd & Ho & Htb).
  cbv zeta in Hg, Hp, Htb.
  change (max_length (self d0)) with 200%Z in Hml, Hp, Htb.
  fold x in Hp, Htb. fold n in Hp, Htb. fold k in Hp, Htb. fold g in Hg, Hp, Htb.
  fold w5 in Hp.
  assert (Hpos1 : (0 < max_length (self s1))%Z) by (rewrite Hml; reflexivity).
  assert (Hdocs' : Forall int32_document (last_items 100 one_hot_urls)).
  { unfold last_items. rewrite Forall_forall in Hdocs |- *.
    intros D HD. apply Hdocs. rewrite <- (firstn_skipn (n - 100) one_hot_urls).
    apply in_or_app. now right. }
  assert (Hne' : last_items 100 one_hot_urls <> []).
  { intros Habs. apply (f_equal (@length _)) in Habs.
    rewrite last_items_length in Habs. fold n in Habs. cbn [length] in Habs. lia. }
  assert (Hlen' : length (last_items 100 one_hot_urls)
                  = length (last_items 100 labels))
    by (rewrite !last_items_length; now rewrite Hlen).
  pose proof (evaluate_run s1 (last_items 100 one_hot_urls) (last_items 100 labels)
                args Keras.acc (Keras.custom Metric.f1)
                Hc eq_refl Hpos1 Hdocs' Hne' Hlen') as Heval.
  cbv zeta in Heval. rewrite Hml, Hg, Hp in Heval. fold held in Heval.
  eexists. split.
  - unfold main. rewrite Hinit. unfold bind. rewrite Hfit. exact Heval.
  - cbn [self env model graph params stdout directories tensorboard].
    split; [exact Hg |]. split; [exact Hp |].
    split; [rewrite Ho; cbn; now rewrite <- app_assoc |].
    split.
    { rewrite Hd.
      now destruct (with_directory_frame "training_logs" d0) as (_ & _ & _ & Hin & _). }
    split; [rewrite Htb, length_app, length_map, length_seq; reflexivity |].
    assert (Hk : (5 * k <= 4 * n < 5 * k + 5)%nat).
    { unfold k. pose proof (Nat.div_mod_eq (4 * n) 5).
      pose proof (Nat.mod_upper_bound (4 * n) 5). lia. }
    split.
    + intros Hbig. exists (firstn (n - 100 - k) (skipn k one_hot_urls)).
      unfold last_items. fold n.
      replace (n - 100)%nat with ((n - 100 - k) + k)%nat by lia.
      rewrite <- skipn_skipn.
      replace (n - 100 - k + k - k)%nat with (n - 100 - k)%nat by lia.
      symmetry. apply firstn_skipn.
    + intros Hsmall.
      assert (Hi : (n - 100 < n)%nat) by lia.
      apply nth_error_Some in Hi.
      destruct (nth_error one_hot_urls (n - 100)) as [D |] eqn:HD; [| congruence].
      exists D. split.
      * rewrite nth_error_firstn.
        destruct (Nat.ltb_spec (n - 100) k); [assumption | lia].
      * unfold last_items. fold n. rewrite nth_error_skipn.
        now rewrite Nat.add_0_r.
Qed.

End DetectorExtras.

(** ** Shapes *)

Section ShapeTheorems.

Context {E : Keras.Engine}.

(** X16: the graphs are well shaped for every choice of hyper-parameters.
    Both graphs take an input of [max_length] entries, the width of a padded
    row, and give one output; every layer in between accepts the shape it is
    given.  A convolution branch built by [_get_complete_conv_layer] turns
    the embedded sequence into a vector of [nb_filter] entries, the shape its
    [Lambda] declares, whatever the filter length. *)
Theorem built_graphs_are_well_shaped (vocab maxlen : Z) (w : world) :
  let simple := graph (model (self (simple_nn_detector vocab maxlen w))) in
  let big := graph (model (self (big_conv_nn_detector vocab maxlen w))) in
  Shape.graph_input simple = Some [maxlen] /\
  Shape.graph_output simple = Some [1%Z] /\
  Shape.graph_input big = Some [maxlen] /\
  Shape.graph_output big = Some [1%Z] /\
  (forall (d : UrlDetector) (filter_length nb_filter : Z),
      Shape.layers_shape (_get_complete_conv_layer d filter_length nb_filter)
                         [max_length d; 32%Z] = Some [nb_filter]).
Proof.
  assert (Hbranch : forall (d : UrlDetector) (filter_length nb_filter : Z),
             Shape.layers_shape (_get_complete_conv_layer d filter_length nb_filter)
                                [max_length d; 32%Z] = Some [nb_filter]).
  { intros d f nb. unfold _get_complete_conv_layer.
    cbn. rewrite Z.eqb_refl. cbn. now rewrite Z.eqb_refl. }
  cbv zeta. split; [reflexivity |].
  split; [cbn; now rewrite Z.eqb_refl |].
  split; [reflexivity |].
  split; [| exact Hbranch].
  cbn. rewrite !Z.eqb_refl. reflexivity.
Qed.

End ShapeTheorems.

(** *** Runs of the further properties on the reference engine *)

Lemma padded_batch_is_rectangular_witness :
  exists padded,
    _get_padded_docs five_docs detector3 = (Ok padded, detector3) /\
    length padded = length five_docs /\
    Forall (fun row => Z.of_nat (length row) = max_length (self detector3)) padded /\
    Forall int32_document padded /\
    (forall i, nth_error five_docs i = Some [] ->
               nth_error padded i
               = Some (repeat 0%Z (Z.to_nat (max_length (self detector3))))).
Proof.
  apply (padded_batch_is_rectangular detector3 five_docs).
  - reflexivity.
  - repeat constructor.
Defined.

Lemma padding_is_idempotent_witness :
  exists padded,
    _get_padded_docs five_docs detector3 = (Ok padded, detector3) /\
    _get_padded_docs padded detector3 = (Ok padded, detector3).
Proof.
  apply (padding_is_idempotent detector3 five_docs).
  - reflexivity.
  - repeat constructor.
Defined.

Lemma only_the_last_entries_matter_witness :
  _get_padded_docs [[1; 2; 3]%Z] detector2 = _get_padded_docs [[9; 8; 2; 3]%Z] detector2 /\
  (forall labels epochs verbose logs,
      fit [[1; 2; 3]%Z] labels epochs verbose logs detector2
      = fit [[9; 8; 2; 3]%Z] labels epochs verbose logs detector2) /\
  (forall labels, evaluate [[1; 2; 3]%Z] labels detector2
                  = evaluate [[9; 8; 2; 3]%Z] labels detector2) /\
  predict_proba [[1; 2; 3]%Z] detector2 = predict_proba [[9; 8; 2; 3]%Z] detector2.
Proof.
  apply (only_the_last_entries_matter detector2 [[1; 2; 3]%Z] [[9; 8; 2; 3]%Z]).
  - reflexivity.
  - repeat constructor.
  - repeat constructor.
  - constructor; [reflexivity | constructor].
Defined.

Lemma trailing_zeros_are_padding_witness :
  _get_padded_docs [[5]%Z] detector3 = _get_padded_docs [[5; 0]%Z] detector3 /\
  (forall labels epochs verbose logs,
      fit [[5]%Z] labels epochs verbose logs detector3
      = fit [[5; 0]%Z] labels epochs verbose logs detector3) /\
  (forall labels, evaluate [[5]%Z] labels detector3
                  = evaluate [[5; 0]%Z] labels detector3) /\
  predict_proba [[5]%Z] detector3 = predict_proba [[5; 0]%Z] detector3.
Proof.
  apply (trailing_zeros_are_padding detector3 [[5]%Z] [[5; 0]%Z]).
  - reflexivity.
  - repeat constructor.
  - constructor; [| constructor].
    exists 1%nat. split; [reflexivity | simpl; lia].
Defined.

Lemma build_model_rebuilds_witness :
  exists s',
    build_model "big_conv_nn" detector3 = (Ok tt, s') /\
    max_length (self s') = max_length (self detector3) /\
    vocab_size (self s') = vocab_size (self detector3) /\
    model (self s') =
      model (self (snd (__init__ "big_conv_nn" (vocab_size (self detector3))
                                 (max_length (self detector3)) (env detector3)))) /\
    params (model (self s')) = Keras.initial_weights (graph (model (self s'))) /\
    compiled (model (self s')) <> None /\
    directories (env s') = directories (env detector3) /\
    tensorboard (env s') = tensorboard (env detector3) /\
    stdout (env s') = stdout (env detector3)
                      ++ [print_summary (graph (model (self s')))].
Proof.
  apply (build_model_rebuilds detector3 "big_conv_nn").
  right. reflexivity.
Defined.

Lemma network_outputs_are_probabilities_witness :
  0 <= network_output (model (self detector_big)) [1; 2; 3]%Z <= 1.
Proof.
  apply (network_outputs_are_probabilities detector_big 87 3 empty_world).
  right. reflexivity.
Defined.

Lemma uncompiled_detector_fails_late_witness :
  fit five_docs five_labels 2 1 "training_logs" detector_unbuilt
    = (Raise RuntimeError, with_directory "training_logs" detector_unbuilt) /\
  In "training_logs"%string
     (directories (env (with_directory "training_logs" detector_unbuilt))) /\
  self (with_directory "training_logs" detector_unbuilt) = self detector_unbuilt /\
  tensorboard (env (with_directory "training_logs" detector_unbuilt))
    = tensorboard (env detector_unbuilt) /\
  evaluate five_docs five_labels detector_unbuilt = (Raise RuntimeError, detector_unbuilt).
Proof.
  apply (uncompiled_detector_fails_late detector_unbuilt five_docs five_labels 2 1
                                        "training_logs").
  - reflexivity.
  - reflexivity.
  - repeat constructor.
Defined.

Lemma misaligned_labels_are_refused_witness :
  fit five_docs [1; 0] 2 1 "training_logs" detector3
    = (Raise ValueError, with_directory "training_logs" detector3) /\
  In "training_logs"%string
     (directories (env (with_directory "training_logs" detector3))) /\
  self (with_directory "training_logs" detector3) = self detector3 /\
  tensorboard (env (with_directory "training_logs" detector3))
    = tensorboard (env detector3) /\
  evaluate five_docs [1; 0] detector3 = (Raise ValueError, detector3).
Proof.
  apply (misaligned_labels_are_refused detector3 five_docs [1; 0] 2 1
                                       "training_logs" simple_nn_args).
  - reflexivity.
  - reflexivity.
  - repeat constructor.
  - discriminate.
Defined.

Lemma training_accumulates_witness :
  let s := detector3 in
  let x := map (padded_row (max_length (self s))) five_docs in
  let k := (4 * length five_docs / 5)%nat in
  let train := (firstn k x, firstn k five_labels) in
  let val := (skipn k x, skipn k five_labels) in
  let g := graph (model (self s)) in
  let w0 := params (model (self s)) in
  exists s1 s2,
    fit five_docs five_labels 1 1 "training_logs" s = (Ok tt, s1) /\
    fit five_docs five_labels 2 1 "training_logs" s1 = (Ok tt, s2) /\
    graph (model (self s2)) = g /\
    compiled (model (self s2)) = Some simple_nn_args /\
    params (model (self s2)) = weights_after simple_nn_args g train w0 (1 + 2) /\
    directories (env s2) = directories (env s1) /\
    tensorboard (env s2) =
      tensorboard (env s1) ++
      map (fun e => ("training_logs"%string, e,
                     Keras.epoch_logs simple_nn_args g
                       (weights_after simple_nn_args g train w0 (1 + S e)) train val))
          (seq 0 2).
Proof.
  apply (training_accumulates detector3 five_docs five_labels 1 2 1
                              "training_logs" simple_nn_args).
  - reflexivity.
  - reflexivity.
  - repeat constructor.
  - reflexivity.
Defined.

Lemma main_run_witness :
  let w := empty_world (E := reference_engine) in
  let n := length five_docs in
  let k := (4 * n / 5)%nat in
  let d0 := big_conv_nn_detector 87 200 w in
  let g := graph (model (self d0)) in
  let args := {| Keras.optimizer := "adam"%string;
                 Keras.loss := "binary_crossentropy"%string;
                 Keras.metrics := [Keras.acc; Keras.custom Metric.f1] |} in
  let x := map (padded_row 200) five_docs in
  let w5 := weights_after args g (firstn k x, firstn k five_labels)
                          (params (model (self d0))) 5 in
  let held := map (padded_row 200) (last_items 100 five_docs) in
  exists s',
    main five_docs five_labels w = (Ok tt, s') /\
    graph (model (self s')) = g /\
    params (model (self s')) = w5 /\
    stdout (env s') =
      stdout w ++
      [print_summary g;
       print_accuracy (Keras.metric_on Keras.acc g w5 held
                                       (last_items 100 five_labels) * 100);
       print_f1_score (Keras.metric_on (Keras.custom Metric.f1) g w5 held
                                       (last_items 100 five_labels))] /\
    In "training_logs"%string (directories (env s')) /\
    length (tensorboard (env s')) = (length (tensorboard w) + 5)%nat /\
    ((496 <= n)%nat ->
     exists trained_before,
       skipn k five_docs = trained_before ++ last_items 100 five_docs) /\
    ((2 <= n < 496)%nat ->
     exists D, nth_error (firstn k five_docs) (n - 100) = Some D /\
               nth_error (last_items 100 five_docs) 0 = Some D).
Proof.
  apply (main_run (E := reference_engine) five_docs five_labels empty_world).
  - repeat constructor.
  - discriminate.
  - reflexivity.
Defined.

Section PredictionExtras.

Context {E : Keras.Engine}.

(** X17: what [predict_proba] returns for the simple network.  For a model
    with the graph of ["simple_nn"], whatever its weights (trained or not),
    [predict_proba] on a non-empty batch returns, in the order of the
    documents, the output of the network on each padded row: one value in
    [[0, 1]] per document.  The detector and the world are unchanged. *)
Theorem predict_proba_on_simple_nn
        (s : state) (vocab maxlen : Z) (w : world) (docs : list (list Z)) :
  graph (model (self s)) = graph (model (self (simple_nn_detector vocab maxlen w))) ->
  (0 < max_length (self s))%Z ->
  Forall int32_document docs ->
  docs <> [] ->
  exists probabilities,
    predict_proba docs s = (Ok probabilities, s) /\
    length probabilities = length docs /\
    forall i D,
      nth_error docs i = Some D ->
      exists p,
        nth_error probabilities i = Some p /\
        p = network_output (model (self s)) (padded_row (max_length (self s)) D) /\
        0 <= p <= 1.
Proof.
  intros Hg Hpos Hdocs Hne.
  exists (map (network_output (model (self s)))
              (map (padded_row (max_length (self s))) docs)).
  split; [| split].
  - unfold predict_proba, bind.
    rewrite (_get_padded_docs_rows s docs Hpos Hdocs).
    unfold model_predict_proba, get_model, get_self, bind, ret.
    rewrite Hg. destruct docs as [| D docs']; [congruence | reflexivity].
  - now rewrite !length_map.
  - intros i D Hi.
    exists (network_output (model (self s)) (padded_row (max_length (self s)) D)).
    split; [| split; [reflexivity |]].
    + rewrite map_map.
      exact (map_nth_error
               (fun D' => network_output (model (self s))
                            (padded_row (max_length (self s)) D')) i docs Hi).
    + unfold network_output. rewrite Hg. apply Keras.logistic_range.
Qed.

End PredictionExtras.

Lemma predict_proba_on_simple_nn_witness :
  exists probabilities,
    predict_proba five_docs detector3 = (Ok probabilities, detector3) /\
    length probabilities = length five_docs /\
    forall i D,
      nth_error five_docs i = Some D ->
      exists p,
        nth_error probabilities i = Some p /\
        p = network_output (model (self detector3))
                           (padded_row (max_length (self detector3)) D) /\
        0 <= p <= 1.
Proof.
  apply (predict_proba_on_simple_nn detector3 87 3 empty_world five_docs).
  - reflexivity.
  - reflexivity.
  - repeat constructor.
  - discriminate.
Defined.
